(** * Loan-conversion dialog flow of nbs_customization (Sales Order client script)

    Shallow embedding of the Sales Order part of
    [nbs_customization/public/js/nbs_theme.js]: the [refresh] handler, the
    pending-loan-waybill selection dialog, the conversion (quantity capture)
    dialog with its live [input] handler, the payload collection and the
    creation call.

    JavaScript numbers are IEEE 754 binary64 values; they are modelled by
    [spec_float], the inductive specification of floats of the standard
    library, whose comparison [SFcompare] is the IEEE comparison (NaN is
    unordered, the two zeros are equal). *)

From Stdlib Require Import ZArith Bool SpecFloat Ascii.
From stdpp Require Import base option list strings.

Open Scope string_scope.
Open Scope list_scope.

(** ** JavaScript numbers *)

Definition number := spec_float.

Definition NaN : number := S754_nan.
Definition zero : number := S754_zero false.

(** The binary64 value of an integer literal such as [0] or [100]. *)
Definition of_Z (z : Z) : number := binary_normalize 53 1024 z 0 false.

(** Truthiness of a number: [NaN], [0] and [-0] are falsy. *)
Definition truthy (x : number) : bool :=
  match x with
  | S754_nan | S754_zero _ => false
  | _ => true
  end.

Definition is_nan (x : number) : bool :=
  match x with
  | S754_nan => true
  | _ => false
  end.

(** [x || 0] *)
Definition or_zero (x : number) : number := if truthy x then x else zero.

(** [a > b], [a < b], [a >= b], [a <= b] *)
Definition js_gt (a b : number) : bool := SFltb b a.
Definition js_lt (a b : number) : bool := SFltb a b.
Definition js_ge (a b : number) : bool := SFleb b a.
Definition js_le (a b : number) : bool := SFleb a b.

(** Truthiness of an optional string property: [undefined], [null] and the
    empty string are falsy. *)
Definition truthy_str (s : option string) : bool :=
  match s with
  | Some s => negb (String.eqb s "")
  | None => false
  end.

(** ** The quantity input of the conversion table

    [<input type="number" min="0" max="${it.max_convertible_qty || 0}"
    class="convert-input" data-index="${i}">].  The script reads the [max]
    attribute and the current text only through [parseFloat], so both are
    kept as the number [parseFloat] reads from them ([NaN] for an empty or
    non-numeric text); [$(this).val(n)] makes later reads return [n]. *)

Record ConvertInput := {
  data_index : nat;
  max_attr : number;
  value : number
}.

Definition set_val (inp : ConvertInput) (n : number) : ConvertInput :=
  {| data_index := data_index inp; max_attr := max_attr inp; value := n |}.

(** [frappe.show_alert({message, indicator})]: a transient notification. *)
Record Alert := { alert_message : string; alert_indicator : string }.

Definition over_conversion_alert : Alert :=
  {| alert_message := "Cannot convert more than maximum convertible quantity.";
     alert_indicator := "orange" |}.

(** The [input] event handler bound in [render_conversion_table]
    (nbs_theme.js, lines 632-649). It returns the element after the handler
    ran and the alerts it raised. *)
Definition on_input (inp : ConvertInput) : ConvertInput * list Alert :=
  let max := or_zero (max_attr inp) in
  let val := or_zero (value inp) in
  let '(val, inp, shown) :=
    if js_gt val max
    then (max, set_val inp max, [over_conversion_alert])
    else (val, inp, []) in
  let inp := if js_lt val zero then set_val inp zero else inp in
  (inp, shown).

(** The quantity a line requests: what [collect_conversion_data] reads from
    the element, [parseFloat($(this).val()) || 0]. *)
Definition requested_qty (inp : ConvertInput) : number := or_zero (value inp).

(** The user replaces the text of an element, which fires [input]. *)
Definition type_into (inp : ConvertInput) (raw : number) : ConvertInput * list Alert :=
  on_input (set_val inp raw).

(** The clamping function of the specification: the quantity requested by a
    line whose maximum is [max] once the user typed [x] into it. *)
Definition clampQuantity (x max : number) : number :=
  requested_qty (fst (type_into {| data_index := 0; max_attr := max; value := NaN |} x)).

(** ** Documents received from the server *)

Record LoanItem := {
  item_code : string;
  description : string;
  batch_no : option string;
  serial_no : option string;
  expiry_date : option string;
  warehouse : option string;
  qty_loaned : number;
  qty_converted : number;
  qty_remaining : number;
  so_qty_remaining : number;
  max_convertible_qty : number;
  stock_entry_detail : option string
}.

Record Loan := {
  loan_waybill : string;
  loan_date : string;
  items : list LoanItem
}.

(** An element of [data.loan_waybills] as it arrives: a loan with its
    [items], or an entry whose [items] are missing. *)
Inductive LoanEntry :=
| complete_loan (loan : Loan)
| loan_without_items (waybill : string) (date : string).

(** [r.message] of [get_pending_loan_waybills]; [loan_waybills] may be
    absent. *)
Record PendingLoans := {
  data_customer : option string;
  data_sales_order : string;
  loan_waybills : option (list LoanEntry)
}.

(** ** What the browser builds from the markup

    The script writes the title, the heading and the table of a dialog as
    HTML ([wrapper.html(html)]), putting the texts of the answer and the
    customer of the form into it as they are, and then finds elements by
    class in the whole dialog. Which elements the HTML parser creates is the
    browser's part and is taken as given:
    - [convert_inputs_of customer loan]: the [.convert-input] elements, in
      document order, of the conversion dialog written for [loan] on the
      form of [customer] (an element without a numeric [data-index] carries
      an index beyond the items: it selects no item either);
    - [checked_radio_of data]: the [data-index] of the first checked
      [.loan-select] of the selection dialog just written for [data].
    What these are for texts without markup is fixed by [standard] below.
    For texts with markup they are whatever the browser makes of them;
    scripts that such markup may carry are not followed. *)
Record Browser := {
  convert_inputs_of : option string → Loan → list ConvertInput;
  checked_radio_of : PendingLoans → option nat
}.

(** [frm.doc] of a Sales Order form, the fields the script reads. An absent
    [per_delivered] compares like [NaN]. *)
Record SalesOrder := {
  name : string;
  docstatus : Z;
  customer : option string;
  per_delivered : number;
  custom_customer_delivery_note : option string;
  custom_promissory_note : option string
}.

(** One entry of [payload.items] built by [collect_conversion_data]. *)
Record PayloadItem := {
  pl_item_code : string;
  pl_qty : number;
  pl_batch_no : option string;
  pl_serial_no : option string;
  pl_warehouse : option string;
  pl_expiry_date : option string;
  pl_loan_waybill : string;
  pl_stock_entry_detail : option string
}.

(** ** The host framework as the script uses it *)

(** [frappe.msgprint]: a blocking message. *)
Record Msg := {
  msg_title : option string;
  msg_message : string;
  msg_indicator : option string
}.

(** [frappe.set_route(view, doctype, name)] *)
Record Route := { route_view : string; route_doctype : string; route_name : string }.

Inductive Args :=
| SalesOrderArgs (sales_order : string)
| ConversionArgs (sales_order : string) (loan : string) (payload : list PayloadItem).

(** A remote call issued through [frappe.call]. *)
Record Call := { method : string; args : Args }.

(** How a remote call resolves: with [r.message] (possibly absent), or with
    a failure (network, server-side validation, authorization). *)
Inductive Response (A : Type) :=
| Success (message : option A)
| Failure (reason : string).
Arguments Success {A} message.
Arguments Failure {A} reason.

Inductive Action :=
| create_linked_doc_action (doctype : string)
| check_pending_loans_action.

(** [frm.add_custom_button(label, action, group)] *)
Record Button := { label : string; group : option string; action : Action }.

Inductive DialogContent :=
| LoanSelection (context_data : PendingLoans) (loans : list Loan) (checked : option nat)
| LoanDetail (loan : Loan) (cust : option string)
| Conversion (loan : Loan) (inputs : list ConvertInput).

(** A [frappe.ui.Dialog] object. Handlers close over the object; here they
    receive its position in the store [dialogs]. *)
Record Dialog := { visible : bool; content : DialogContent }.

(** Everything the script acts on: the custom buttons of the form, the
    dialog objects it created, and the log of what it asked the framework
    to do (messages, alerts, navigation, remote calls). *)
Record World := {
  buttons : list Button;
  dialogs : list Dialog;
  msgprints : list Msg;
  alerts : list Alert;
  routes : list Route;
  calls : list Call;
  browser : Browser
}.

(** The form is open in the browser [b]; the script has done nothing yet. *)
Definition initial_world (b : Browser) : World :=
  {| buttons := []; dialogs := []; msgprints := []; alerts := []; routes := [];
     calls := []; browser := b |}.

Definition with_buttons (bs : list Button) (w : World) : World :=
  {| buttons := bs; dialogs := dialogs w; msgprints := msgprints w;
     alerts := alerts w; routes := routes w; calls := calls w;
     browser := browser w |}.

Definition with_dialogs (ds : list Dialog) (w : World) : World :=
  {| buttons := buttons w; dialogs := ds; msgprints := msgprints w;
     alerts := alerts w; routes := routes w; calls := calls w;
     browser := browser w |}.

Definition msgprint (m : Msg) (w : World) : World :=
  {| buttons := buttons w; dialogs := dialogs w; msgprints := msgprints w ++ [m];
     alerts := alerts w; routes := routes w; calls := calls w;
     browser := browser w |}.

Definition show_alerts (al : list Alert) (w : World) : World :=
  {| buttons := buttons w; dialogs := dialogs w; msgprints := msgprints w;
     alerts := alerts w ++ al; routes := routes w; calls := calls w;
     browser := browser w |}.

Definition set_route (view doctype docname : string) (w : World) : World :=
  {| buttons := buttons w; dialogs := dialogs w; msgprints := msgprints w;
     alerts := alerts w;
     routes := routes w ++ [{| route_view := view; route_doctype := doctype;
                              route_name := docname |}];
     calls := calls w; browser := browser w |}.

Definition send (c : Call) (w : World) : World :=
  {| buttons := buttons w; dialogs := dialogs w; msgprints := msgprints w;
     alerts := alerts w; routes := routes w; calls := calls w ++ [c];
     browser := browser w |}.

(** A handler returns [None] when it stops on an uncaught [TypeError].

    [frappe.call({method, args, freeze: true, callback})] as every call site
    of the script writes it: the request is sent once, the screen is frozen
    until it resolves, and [callback] runs only when the call succeeds; no
    [error] handler is passed, so on failure no code of the script runs. *)
Definition frappe_call {A : Type} (c : Call) (callback : option A → World → option World)
    (r : Response A) (w : World) : option World :=
  let w := send c w in
  match r with
  | Success message => callback message w
  | Failure _ => Some w
  end.

(** [new frappe.ui.Dialog(...)] followed by [dialog.show()]. *)
Definition show_dialog (c : DialogContent) (w : World) : World :=
  with_dialogs (dialogs w ++ [{| visible := true; content := c |}]) w.

(** [dialog.hide()] *)
Definition hide (d : nat) (w : World) : World :=
  match dialogs w !! d with
  | Some dlg => with_dialogs (<[d := {| visible := false; content := content dlg |}]> (dialogs w)) w
  | None => w
  end.

(** ** Sales Order [refresh] (nbs_theme.js, lines 268-299) *)

Definition add_linked_document_buttons (doc : SalesOrder) (bs : list Button) : list Button :=
  let bs :=
    if negb (truthy_str (custom_customer_delivery_note doc))
    then bs ++ [{| label := "Customer Delivery Note"; group := Some "Create";
                   action := create_linked_doc_action "Customer Delivery Note" |}]
    else bs in
  if negb (truthy_str (custom_promissory_note doc))
  then bs ++ [{| label := "Promissory Note"; group := Some "Create";
                 action := create_linked_doc_action "Promissory Note" |}]
  else bs.

Definition check_pending_loans_button : Button :=
  {| label := "Check Pending Loan Waybills"; group := None;
     action := check_pending_loans_action |}.

(** The buttons the handler adds to a form whose custom buttons [bs] were
    just reset by the framework. *)
Definition refresh (doc : SalesOrder) (bs : list Button) : list Button :=
  if negb (docstatus doc =? 1)%Z then bs else
  let bs := add_linked_document_buttons doc bs in
  if negb (truthy_str (customer doc)) then bs else
  if js_ge (per_delivered doc) (of_Z 100) then bs else
  bs ++ [check_pending_loans_button].

(** Whether the entry point of the workflow is on the form after [refresh]. *)
Definition starts_workflow (b : Button) : bool :=
  match action b with
  | check_pending_loans_action => true
  | create_linked_doc_action _ => false
  end.

Definition offers_loan_conversion (doc : SalesOrder) : bool :=
  existsb starts_workflow (refresh doc []).

(** ** Linked documents (nbs_theme.js, lines 301-319) *)

Definition create_linked_doc (doc : SalesOrder) (doctype : string)
    (r : Response string) (w : World) : option World :=
  let method :=
    if String.eqb doctype "Customer Delivery Note"
    then "nbs_customization.controllers.sales_order.create_customer_delivery_note_from_sales_order"
    else "nbs_customization.controllers.sales_order.create_promissory_note_from_sales_order" in
  frappe_call {| method := method; args := SalesOrderArgs (name doc) |}
    (λ message w,
       match message with
       | Some docname =>
           if negb (truthy_str message) then Some w
           else Some (set_route "Form" doctype docname w)
       | None => Some w
       end) r w.

(** ** Pending loan waybills (nbs_theme.js, lines 321-383, 402-469, 527-534) *)

Definition no_pending_loans_msg : Msg :=
  {| msg_title := Some "No Pending Loans";
     msg_message := "No matching pending loan waybills were found for this Sales Order.";
     msg_indicator := Some "green" |}.

(** The loop of [render_loan_table] evaluates [loan.items.reduce(...)] for
    every entry before anything is written or stored: an entry without
    [items] stops it with a [TypeError]. *)
Fixpoint complete_loans (entries : list LoanEntry) : option (list Loan) :=
  match entries with
  | [] => Some []
  | complete_loan loan :: rest =>
      match complete_loans rest with
      | Some loans => Some (loan :: loans)
      | None => None
      end
  | loan_without_items _ _ :: _ => None
  end.

(** [render_context_info] stores [data] on the dialog, [render_loan_table]
    stores [data.loan_waybills] and writes one row and one unchecked radio
    button per loan; iterating an absent list throws, and so does a loan
    without items (the dialog was already shown then: what a handler leaves
    behind when it throws is not followed). *)
Definition show_loan_selection_dialog (data : PendingLoans) (w : World) : option World :=
  match loan_waybills data with
  | Some entries =>
      match complete_loans entries with
      | Some loans =>
          Some (show_dialog
                  (LoanSelection data loans (checked_radio_of (browser w) data)) w)
      | None => None
      end
  | None => None
  end.

Definition check_pending_loans_callback (data : option PendingLoans) (w : World)
    : option World :=
  match data with
  | None => Some (msgprint no_pending_loans_msg w)
  | Some d =>
      match loan_waybills d with
      | None => Some (msgprint no_pending_loans_msg w)
      | Some lws =>
          if (length lws =? 0)%nat then Some (msgprint no_pending_loans_msg w)
          else show_loan_selection_dialog d w
      end
  end.

Definition check_pending_loans (doc : SalesOrder) (r : Response PendingLoans)
    (w : World) : option World :=
  frappe_call
    {| method := "nbs_customization.controllers.sales_order.get_pending_loan_waybills";
       args := SalesOrderArgs (name doc) |}
    check_pending_loans_callback r w.

Definition show_loan_detail_dialog (loan : Loan) (cust : option string) (w : World) : World :=
  show_dialog (LoanDetail loan cust) w.

(** [get_selected_loan]: the loan of the checked radio button, [null] when
    none is checked. *)
Definition get_selected_loan (loans : list Loan) (checked : option nat) : option Loan :=
  match checked with
  | None => None
  | Some index => loans !! index
  end.

(** ** The conversion dialog (nbs_theme.js, lines 536-694) *)

(** The inputs [render_conversion_table] writes itself: one empty quantity
    input per loan item. *)
Definition render_conversion_table (its : list LoanItem) : list ConvertInput :=
  imap (λ i it, {| data_index := i;
                   max_attr := or_zero (max_convertible_qty it);
                   value := NaN |}) its.

(** [render_conversion_context] writes the waybill, [frm.doc.customer] and
    the date of the loan above the table. The dialog holds the
    [.convert-input] elements the browser finds in it:
    [collect_conversion_data] reads all of them. *)
Definition open_conversion_dialog (doc : SalesOrder) (loan : Loan) (w : World) : World :=
  show_dialog (Conversion loan (convert_inputs_of (browser w) (customer doc) loan)) w.

(** *** Texts without markup

    A text without [<] put into a table cell creates no element; a text put
    into a double-quoted attribute must not hold a double quote either. *)
Fixpoint plain_text (s : string) : bool :=
  match s with
  | EmptyString => true
  | String c rest => negb (Ascii.eqb c "<"%char) && plain_text rest
  end.

Fixpoint plain_link (s : string) : bool :=
  match s with
  | EmptyString => true
  | String c rest =>
      negb (Ascii.eqb c "<"%char) && negb (Ascii.eqb c (Ascii.ascii_of_nat 34))
      && plain_link rest
  end.

(** [${text || ""}] *)
Definition plain_optional (s : option string) : bool :=
  match s with
  | Some s => plain_text s
  | None => true
  end.

(** The texts of an item that the conversion table shows (lines 601-603). *)
Definition plain_item (it : LoanItem) : bool :=
  plain_text (item_code it) && plain_optional (batch_no it)
  && plain_optional (serial_no it).

(** The waybill and the date of a loan, shown in the list (lines 427-431,
    the waybill also inside a link) and in the title and the heading of the
    dialogs of the loan (lines 538, 570-573). *)
Definition plain_heading (waybill date : string) : bool :=
  plain_link waybill && plain_text date.

(** Every text of a loan that its conversion dialog shows. *)
Definition plain_loan (loan : Loan) : bool :=
  plain_heading (loan_waybill loan) (loan_date loan)
  && forallb plain_item (items loan).

(** The texts the selection dialog shows (lines 388-396, 422-435). *)
Definition plain_entry (e : LoanEntry) : bool :=
  match e with
  | complete_loan loan => plain_heading (loan_waybill loan) (loan_date loan)
  | loan_without_items waybill date => plain_heading waybill date
  end.

Definition plain_answer (data : PendingLoans) : bool :=
  plain_optional (data_customer data) && plain_link (data_sales_order data)
  && match loan_waybills data with
     | Some entries => forallb plain_entry entries
     | None => true
     end.

(** A browser on texts without markup finds the elements the script wrote
    itself and nothing else: in a conversion dialog the inputs of the table,
    in a selection dialog just written no checked radio button. *)
Definition standard (b : Browser) : Prop :=
  (∀ cust loan, plain_optional cust = true → plain_loan loan = true →
                convert_inputs_of b cust loan = render_conversion_table (items loan)) ∧
  (∀ data, plain_answer data = true → checked_radio_of b data = None).

(** The browser of the sample sessions below, whose texts hold no markup. *)
Definition plain_browser : Browser :=
  {| convert_inputs_of := λ _ loan, render_conversion_table (items loan);
     checked_radio_of := λ _, None |}.

Definition empty_world : World := initial_world plain_browser.

Definition select_loan_msg : Msg :=
  {| msg_title := None; msg_message := "Please select a Loan Waybill to convert.";
     msg_indicator := None |}.

(** [primary_action] ("Convert Selected") of the selection dialog [d]. *)
Definition selection_primary_action (doc : SalesOrder) (d : nat) (loans : list Loan)
    (checked : option nat) (w : World) : World :=
  match get_selected_loan loans checked with
  | None => msgprint select_loan_msg w
  | Some selected => open_conversion_dialog doc selected (hide d w)
  end.

(** [collect_conversion_data]: [.each] visits the inputs in document order;
    [loan.items[index]] of a missing index is [undefined] and reading its
    [item_code] throws. *)
Fixpoint collect_conversion_data (inputs : list ConvertInput) (loan : Loan)
    : option (list PayloadItem) :=
  match inputs with
  | [] => Some []
  | inp :: rest =>
      let qty := or_zero (value inp) in
      if negb (truthy qty) then collect_conversion_data rest loan
      else
        match items loan !! data_index inp with
        | None => None
        | Some src =>
            match collect_conversion_data rest loan with
            | None => None
            | Some more =>
                Some ({| pl_item_code := item_code src;
                         pl_qty := qty;
                         pl_batch_no := batch_no src;
                         pl_serial_no := serial_no src;
                         pl_warehouse := warehouse src;
                         pl_expiry_date := expiry_date src;
                         pl_loan_waybill := loan_waybill loan;
                         pl_stock_entry_detail := stock_entry_detail src |} :: more)
            end
        end
  end.

Definition create_draft_delivery_note (doc : SalesOrder) (loan : Loan)
    (payload : list PayloadItem) (r : Response string) (w : World) : option World :=
  frappe_call
    {| method := "nbs_customization.controllers.sales_order.create_delivery_note_from_loan";
       args := ConversionArgs (name doc) (loan_waybill loan) payload |}
    (λ message w,
       match message with
       | Some docname =>
           if negb (truthy_str message) then Some w
           else Some (set_route "Form" "Delivery Note" docname w)
       | None => Some w
       end) r w.

Definition enter_quantity_msg : Msg :=
  {| msg_title := None; msg_message := "Enter at least one quantity to convert.";
     msg_indicator := None |}.

(** [primary_action] ("Create Conversion Waybill") of the conversion dialog
    [d]; [r] is how the creation call resolves if it is sent. *)
Definition conversion_primary_action (doc : SalesOrder) (d : nat) (loan : Loan)
    (inputs : list ConvertInput) (r : Response string) (w : World) : option World :=
  match collect_conversion_data inputs loan with
  | None => None
  | Some payload =>
      if (length payload =? 0)%nat then Some (msgprint enter_quantity_msg w)
      else create_draft_delivery_note doc loan payload r (hide d w)
  end.

(** ** The workflow as an event-driven machine

    What the user can do and how the framework answers. Only a visible
    dialog receives clicks and key strokes; while a call is in flight the
    screen is frozen, so a click that sends a call carries the resolution of
    that call. *)
Inductive Event :=
| FormRefresh
| ClickCreateLinkedDoc (doctype : string) (r : Response string)
| ClickCheckPendingLoans (r : Response PendingLoans)
| ClickLoanRadio (d index : nat)
| ClickLoanRow (d index : nat)
| ClickConvertSelected (d : nat)
| TypeQuantity (d index : nat) (raw : number)
| ClickCreateConversionWaybill (d : nat) (r : Response string)
| CloseDialog (d : nat).

Definition has_button (a : Action → bool) (w : World) : bool :=
  existsb (λ b, a (action b)) (buttons w).

Definition visible_content (d : nat) (w : World) : option DialogContent :=
  match dialogs w !! d with
  | Some dlg => if visible dlg then Some (content dlg) else None
  | None => None
  end.

Definition set_content (d : nat) (c : DialogContent) (w : World) : World :=
  with_dialogs (<[d := {| visible := true; content := c |}]> (dialogs w)) w.

Definition step (doc : SalesOrder) (e : Event) (w : World) : option World :=
  match e with
  | FormRefresh => Some (with_buttons (refresh doc []) w)
  | ClickCreateLinkedDoc doctype r =>
      if has_button (λ a, match a with
                          | create_linked_doc_action dt => String.eqb dt doctype
                          | check_pending_loans_action => false
                          end) w
      then create_linked_doc doc doctype r w
      else Some w
  | ClickCheckPendingLoans r =>
      if has_button (λ a, match a with
                          | check_pending_loans_action => true
                          | create_linked_doc_action _ => false
                          end) w
      then check_pending_loans doc r w
      else Some w
  | ClickLoanRadio d index =>
      match visible_content d w with
      | Some (LoanSelection data loans _) =>
          if (index <? length loans)%nat
          then Some (set_content d (LoanSelection data loans (Some index)) w)
          else Some w
      | _ => Some w
      end
  | ClickLoanRow d index =>
      match visible_content d w with
      | Some (LoanSelection data loans _) =>
          match loans !! index with
          | Some loan => Some (show_loan_detail_dialog loan (data_customer data) w)
          | None => Some w
          end
      | _ => Some w
      end
  | ClickConvertSelected d =>
      match visible_content d w with
      | Some (LoanSelection _ loans checked) =>
          Some (selection_primary_action doc d loans checked w)
      | _ => Some w
      end
  | TypeQuantity d index raw =>
      match visible_content d w with
      | Some (Conversion loan inputs) =>
          match inputs !! index with
          | Some inp =>
              let '(inp, shown) := type_into inp raw in
              Some (show_alerts shown
                      (set_content d (Conversion loan (<[index := inp]> inputs)) w))
          | None => Some w
          end
      | _ => Some w
      end
  | ClickCreateConversionWaybill d r =>
      match visible_content d w with
      | Some (Conversion loan inputs) => conversion_primary_action doc d loan inputs r w
      | _ => Some w
      end
  | CloseDialog d =>
      match visible_content d w with
      | Some _ => Some (hide d w)
      | None => Some w
      end
  end.

Fixpoint run (doc : SalesOrder) (es : list Event) (w : World) : option World :=
  match es with
  | [] => Some w
  | e :: es =>
      match step doc e w with
      | Some w => run doc es w
      | None => None
      end
  end.

(** ** The specification's view of quantity capture *)

(** A conversion request line: a loan line item with the quantity the user
    currently requests for it. *)
Record ConversionRequestLine := { source : LoanItem; requestedQty : number }.

Definition request_lines (loan : Loan) (inputs : list ConvertInput)
    : list ConversionRequestLine :=
  zip_with (λ it inp, {| source := it; requestedQty := requested_qty inp |})
    (items loan) inputs.

Definition hasAnyPositiveQuantity (lines : list ConversionRequestLine) : bool :=
  existsb (λ l, js_gt (requestedQty l) zero) lines.

(** The payload as the specification words it: the lines with
    [requestedQty > 0], in order, each with the fields of its source item. *)
Definition payload_item (loan : Loan) (l : ConversionRequestLine) : PayloadItem :=
  {| pl_item_code := item_code (source l);
     pl_qty := requestedQty l;
     pl_batch_no := batch_no (source l);
     pl_serial_no := serial_no (source l);
     pl_warehouse := warehouse (source l);
     pl_expiry_date := expiry_date (source l);
     pl_loan_waybill := loan_waybill loan;
     pl_stock_entry_detail := stock_entry_detail (source l) |}.

Definition submission_payload (loan : Loan) (lines : list ConversionRequestLine)
    : list PayloadItem :=
  map (payload_item loan) (List.filter (λ l, js_gt (requestedQty l) zero) lines).

(** The one remote call of a submission. *)
Definition creation_call (doc : SalesOrder) (loan : Loan) (payload : list PayloadItem)
    : Call :=
  {| method := "nbs_customization.controllers.sales_order.create_delivery_note_from_loan";
     args := ConversionArgs (name doc) (loan_waybill loan) payload |}.

(** The maximum of a line as the dialog shows and enforces it,
    [it.max_convertible_qty || 0]. *)
Definition maxConvertibleQty (l : ConversionRequestLine) : number :=
  or_zero (max_convertible_qty (source l)).

(** The per-line invariant [0 <= requestedQty <= maxConvertibleQty]. *)
Definition within_limits (l : ConversionRequestLine) : Prop :=
  js_le zero (requestedQty l) = true ∧
  js_le (requestedQty l) (maxConvertibleQty l) = true.

(** ** Invariants of the dialog store *)

(** What every quantity input satisfies once its handler ran: the requested
    quantity is not below zero, and not above the maximum of the element
    when that maximum is not below zero itself. *)
Definition in_range (inp : ConvertInput) : Prop :=
  js_le zero (requested_qty inp) = true ∧
  (js_le zero (or_zero (max_attr inp)) = true →
   js_le (requested_qty inp) (or_zero (max_attr inp)) = true).

(** The [index]-th input of a conversion dialog belongs to the [index]-th
    item of its loan and holds what its handler accepts: with a negative
    maximum that is zero. *)
Definition line_wf (loan : Loan) (index : nat) (inp : ConvertInput) : Prop :=
  data_index inp = index ∧
  ∃ it, items loan !! index = Some it ∧
        max_attr inp = or_zero (max_convertible_qty it) ∧
        in_range inp ∧
        (js_lt (or_zero (max_attr inp)) zero = true → requested_qty inp = zero).

(** The inputs of a capture are the lines the script rendered for its loan:
    one per item, in item order, each with the [data-index] and the [max]
    the template gave it, and a quantity its handler left or accepts. *)
Definition inputs_wf (loan : Loan) (inputs : list ConvertInput) : Prop :=
  length inputs = length (items loan) ∧
  ∀ index inp, inputs !! index = Some inp → line_wf loan index inp.

(** A capture holds the rendered lines of its loan; the loans of a
    selection dialog show no markup in their conversion dialog. *)
Definition content_ok (c : DialogContent) : Prop :=
  match c with
  | Conversion loan inputs => inputs_wf loan inputs
  | LoanSelection _ loans _ => forallb plain_loan loans = true
  | LoanDetail _ _ => True
  end.

Definition world_ok (w : World) : Prop :=
  standard (browser w) ∧
  ∀ d dlg, dialogs w !! d = Some dlg → content_ok (content dlg).

(** An answer whose loans all have their items and whose texts hold no
    markup. *)
Definition clean_entry (e : LoanEntry) : bool :=
  match e with
  | complete_loan loan => plain_loan loan
  | loan_without_items _ _ => false
  end.

Definition clean_answer (data : PendingLoans) : bool :=
  plain_optional (data_customer data) && plain_link (data_sales_order data)
  && match loan_waybills data with
     | Some entries => forallb clean_entry entries
     | None => true
     end.

(** The customer of the form holds no markup. *)
Definition plain_order (doc : SalesOrder) : bool := plain_optional (customer doc).

Definition clean_event (e : Event) : bool :=
  match e with
  | ClickCheckPendingLoans (Success (Some data)) => clean_answer data
  | _ => true
  end.

(** What the handler guarantees for a line, whatever its maximum: the
    quantity is not below zero, it is not above a maximum that is not below
    zero, and it is zero when the maximum is negative. *)
Definition effective_limits (l : ConversionRequestLine) : Prop :=
  js_le zero (requestedQty l) = true ∧
  (js_le zero (maxConvertibleQty l) = true →
   js_le (requestedQty l) (maxConvertibleQty l) = true) ∧
  (js_lt (maxConvertibleQty l) zero = true → requestedQty l = zero).

(** The per-line invariant as the specification states it, after the edit
    [raw] of line [index] of the capture [d]. *)
Definition invariant_holds_after_edit (doc : SalesOrder) (d index : nat) (raw : number)
    (w : World) : Prop :=
  ∃ w' loan inputs',
    step doc (TypeQuantity d index raw) w = Some w' ∧
    visible_content d w' = Some (Conversion loan inputs') ∧
    Forall within_limits (request_lines loan inputs').

(** The failure scenario as the specification describes it: after the
    creation call of dialog [d] failed with [reason], dialog [d] is again a
    visible quantity capture with the quantities it had, and the reason is
    on display. *)
Definition failure_returns_to_capture (doc : SalesOrder) (d : nat) (reason : string)
    (w : World) : Prop :=
  ∃ w' loan inputs,
    step doc (ClickCreateConversionWaybill d (Failure reason)) w = Some w' ∧
    visible_content d w = Some (Conversion loan inputs) ∧
    visible_content d w' = Some (Conversion loan inputs) ∧
    ∃ m, m ∈ msgprints w' ∧ msg_message m = reason.

(** ** Sample documents *)

Definition gloves : LoanItem :=
  {| item_code := "PID-0001"; description := "Nitrile gloves";
     batch_no := Some "B-17"; serial_no := None; expiry_date := Some "2027-03-31";
     warehouse := Some "Main Store";
     qty_loaned := of_Z 10; qty_converted := of_Z 2; qty_remaining := of_Z 8;
     so_qty_remaining := of_Z 5; max_convertible_qty := of_Z 5;
     stock_entry_detail := Some "SED-0001" |}.

Definition syringes : LoanItem :=
  {| item_code := "PID-0002"; description := "Syringes 5ml";
     batch_no := None; serial_no := Some "SN-9"; expiry_date := None;
     warehouse := Some "Main Store";
     qty_loaned := of_Z 4; qty_converted := of_Z 0; qty_remaining := of_Z 4;
     so_qty_remaining := of_Z 6; max_convertible_qty := of_Z 4;
     stock_entry_detail := Some "SED-0002" |}.

Definition loan_1 : Loan :=
  {| loan_waybill := "LW-0001"; loan_date := "2026-01-15"; items := [gloves; syringes] |}.

Definition pending_1 : PendingLoans :=
  {| data_customer := Some "ACME Clinic"; data_sales_order := "SO-0001";
     loan_waybills := Some [complete_loan loan_1] |}.

Definition order_1 : SalesOrder :=
  {| name := "SO-0001"; docstatus := 1; customer := Some "ACME Clinic";
     per_delivered := of_Z 40;
     custom_customer_delivery_note := None; custom_promissory_note := None |}.

(** A submitted, undelivered order whose customer field is empty. *)
Definition order_without_customer : SalesOrder :=
  {| name := "SO-0002"; docstatus := 1; customer := None;
     per_delivered := of_Z 0;
     custom_customer_delivery_note := None; custom_promissory_note := None |}.

(** The user opens the list, checks the only loan, confirms, and asks for 7
    gloves (more than the 5 allowed) and -3 syringes. *)
Definition capture_session : list Event :=
  [FormRefresh; ClickCheckPendingLoans (Success (Some pending_1));
   ClickLoanRadio 0 0; ClickConvertSelected 0;
   TypeQuantity 1 0 (of_Z 7); TypeQuantity 1 1 (of_Z (-3))].

(** An item the order no longer needs: the server reports a negative
    maximum. *)
Definition overdrawn : LoanItem :=
  {| item_code := "PID-0003"; description := "Face masks";
     batch_no := None; serial_no := None; expiry_date := None;
     warehouse := Some "Main Store";
     qty_loaned := of_Z 10; qty_converted := of_Z 0; qty_remaining := of_Z 10;
     so_qty_remaining := of_Z (-5); max_convertible_qty := of_Z (-5);
     stock_entry_detail := Some "SED-0003" |}.

Definition loan_2 : Loan :=
  {| loan_waybill := "LW-0002"; loan_date := "2026-02-01"; items := [overdrawn] |}.

Definition pending_2 : PendingLoans :=
  {| data_customer := Some "ACME Clinic"; data_sales_order := "SO-0001";
     loan_waybills := Some [complete_loan loan_2] |}.

(** The capture of [loan_2] is open and nothing was typed. *)
Definition overdrawn_session : list Event :=
  [FormRefresh; ClickCheckPendingLoans (Success (Some pending_2));
   ClickLoanRadio 0 0; ClickConvertSelected 0].

(** The list is open and no loan is checked. *)
Definition list_session : list Event :=
  [FormRefresh; ClickCheckPendingLoans (Success (Some pending_1))].

(** The conversion dialog was just opened and nothing was typed. *)
Definition open_session : list Event :=
  [FormRefresh; ClickCheckPendingLoans (Success (Some pending_1));
   ClickLoanRadio 0 0; ClickConvertSelected 0].

Definition world_after (es : list Event) : World :=
  default empty_world (run order_1 es empty_world).

(** The inputs at the end of [capture_session]: 7 was clamped to 5 and -3
    was reset to 0. *)
Definition captured_inputs : list ConvertInput :=
  [ {| data_index := 0; max_attr := of_Z 5; value := of_Z 5 |};
    {| data_index := 1; max_attr := of_Z 4; value := zero |} ].

Definition captured_payload : list PayloadItem :=
  [ {| pl_item_code := "PID-0001"; pl_qty := of_Z 5;
       pl_batch_no := Some "B-17"; pl_serial_no := None;
       pl_warehouse := Some "Main Store"; pl_expiry_date := Some "2027-03-31";
       pl_loan_waybill := "LW-0001"; pl_stock_entry_detail := Some "SED-0001" |} ].

(** ** Further observations of the workflow *)

(** Whether [refresh] puts the "Create" button of [doctype] on the form. *)
Definition offers_linked_doc (doctype : string) (doc : SalesOrder) : bool :=
  existsb (λ b, match action b with
                | create_linked_doc_action dt => String.eqb dt doctype
                | check_pending_loans_action => false
                end) (refresh doc []).

(** The events whose handler contains a [frappe.call]. *)
Definition may_call (e : Event) : bool :=
  match e with
  | ClickCreateLinkedDoc _ _ | ClickCheckPendingLoans _
  | ClickCreateConversionWaybill _ _ => true
  | _ => false
  end.

Definition pending_loans_call (doc : SalesOrder) : Call :=
  {| method := "nbs_customization.controllers.sales_order.get_pending_loan_waybills";
     args := SalesOrderArgs (name doc) |}.

(** [w'] still holds every dialog of [w], and those that were hidden in [w]
    are exactly as they were. *)
Definition keeps_hidden (w w' : World) : Prop :=
  (length (dialogs w) ≤ length (dialogs w'))%nat ∧
  ∀ d dlg, dialogs w !! d = Some dlg → visible dlg = false →
           dialogs w' !! d = Some dlg.

Definition linked_doc_method (doctype : string) : string :=
  if String.eqb doctype "Customer Delivery Note"
  then "nbs_customization.controllers.sales_order.create_customer_delivery_note_from_sales_order"
  else "nbs_customization.controllers.sales_order.create_promissory_note_from_sales_order".


(** What a user may try after a submission: typing again, submitting again,
    reopening the list. *)
Definition later_events : list Event :=
  [TypeQuantity 1 0 (of_Z 2);
   ClickCreateConversionWaybill 1 (Success (Some "DN-0002"));
   ClickCheckPendingLoans (Success (Some pending_1))].

Definition continue (es : list Event) (w : World) : World :=
  default w (run order_1 es w).

(** The hidden list dialog at the end of [capture_session]. *)
Definition hidden_list_dialog : Dialog :=
  {| visible := false; content := LoanSelection pending_1 [loan_1] (Some 0%nat) |}.

(** [capture_session] followed by a submission that fails. *)
Definition failed_world : World :=
  continue [ClickCreateConversionWaybill 1 (Failure "insufficient stock")]
    (world_after capture_session).



(** ** Theme manager (nbs_theme.js, lines 8-253) *)

(** A capital letter [A-Z]. *)
Definition is_upper (c : Ascii.ascii) : bool :=
  (65 <=? Ascii.nat_of_ascii c)%nat && (Ascii.nat_of_ascii c <=? 90)%nat.

Definition lower (c : Ascii.ascii) : Ascii.ascii :=
  if is_upper c then Ascii.ascii_of_nat (Ascii.nat_of_ascii c + 32) else c.

(** [key.replace(/([A-Z])/g, "-$1")]: a hyphen before every capital. *)
Fixpoint hyphenate (key : string) : string :=
  match key with
  | EmptyString => EmptyString
  | String c rest =>
      if is_upper c then String "-"%char (String c (hyphenate rest))
      else String c (hyphenate rest)
  end.

(** [.toLowerCase()], for text made of ASCII characters (on other
    characters JavaScript applies the Unicode case mapping). *)
Fixpoint toLowerCase (s : string) : string :=
  match s with
  | EmptyString => EmptyString
  | String c rest => String (lower c) (toLowerCase rest)
  end.

(** The custom property [applyTheme] sets for a key of [themeConfig]:
    [`--nbs-${key.replace(/([A-Z])/g, "-$1").toLowerCase()}`]. *)
Definition css_var (key : string) : string :=
  String.append "--nbs-" (toLowerCase (hyphenate key)).

Fixpoint ascii_only (s : string) : bool :=
  match s with
  | EmptyString => true
  | String c rest => (Ascii.nat_of_ascii c <? 128)%nat && ascii_only rest
  end.




(** [this.themeConfig], the fields the class reads. *)
Record ThemeConfig := {
  primaryColor : string;
  primaryHover : string;
  dangerColor : string;
  dangerHover : string;
  tableHeaderBg : string;
  tableHeaderText : string;
  tableEvenBg : string;
  tableHoverBg : string;
  navbarBg : string;
  navbarText : string;
  loginTitle : string;
  loginTitleColor : string;
  loginBoxBg : string;
  loginBoxWidth : string
}.

(** The configuration the constructor installs. *)
Definition default_theme : ThemeConfig :=
  {| primaryColor := "#001b52"; primaryHover := "#001540";
     dangerColor := "#dc2626"; dangerHover := "#b91c1c";
     tableHeaderBg := "#001b52"; tableHeaderText := "#ffffff";
     tableEvenBg := "#eff6ff"; tableHoverBg := "#eff6ff";
     navbarBg := "#001b52"; navbarText := "#ffffff";
     loginTitle := "Biomedical Solutions"; loginTitleColor := "#001b52";
     loginBoxBg := "#ffffff"; loginBoxWidth := "400px" |}.

(** [style.prop = value] on a style object whose parser is [accepts]: the
    empty text clears the property, a value the parser accepts is stored, and
    any other value is ignored, so that the property keeps what it had. *)
Definition accepted (accepts : string → bool) (value : string) : bool :=
  String.eqb value "" || accepts value.

Definition assign (accepts : string → bool) (old value : string) : string :=
  if accepted accepts value then value else old.

(** A [tbody tr]: its inline background, as the text of the last assignment
    its style object took (the browser shows a colour in its own notation);
    the values its style object accepts for a colour; and, for each pair of
    [mouseenter]/[mouseleave] listeners [styleTable] added to it, the [index]
    the pair closed over. *)
Record TableRow := {
  row_backgroundColor : string;
  row_accepts : string → bool;
  hover_listeners : list nat
}.

(** A [thead th] with its inline background and text colour, and the values
    its style object accepts for a colour. *)
Record HeaderCell := {
  th_backgroundColor : string;
  th_color : string;
  th_accepts : string → bool
}.

(** An element node as [applyStylingToNewElements] sees it: its classes, its
    inline background and border colours, and what
    [querySelectorAll("thead th")] and [querySelectorAll("tbody tr")] return
    for it. *)
Record Element := {
  classList : list string;
  backgroundColor : string;
  borderColor : string;
  thead_th : list HeaderCell;
  tbody_tr : list TableRow
}.


(** [row.style.backgroundColor = colour] *)
Definition set_row_background (row : TableRow) (colour : string) : TableRow :=
  {| row_backgroundColor := assign (row_accepts row) (row_backgroundColor row) colour;
     row_accepts := row_accepts row;
     hover_listeners := hover_listeners row |}.

(** [row.addEventListener("mouseenter", ...)] and
    [row.addEventListener("mouseleave", ...)], both closing over [index]. *)
Definition add_hover_listeners (row : TableRow) (index : nat) : TableRow :=
  {| row_backgroundColor := row_backgroundColor row;
     row_accepts := row_accepts row;
     hover_listeners := hover_listeners row ++ [index] |}.

(** [header.style.backgroundColor = tableHeaderBg; header.style.color =
    tableHeaderText] *)
Definition set_header_colours (cfg : ThemeConfig) (header : HeaderCell) : HeaderCell :=
  {| th_backgroundColor :=
       assign (th_accepts header) (th_backgroundColor header) (tableHeaderBg cfg);
     th_color := assign (th_accepts header) (th_color header) (tableHeaderText cfg);
     th_accepts := th_accepts header |}.

(** [styleTable] (lines 200-225). *)
Definition styleTable (cfg : ThemeConfig) (table : Element) : Element :=
  {| classList := classList table;
     backgroundColor := backgroundColor table;
     borderColor := borderColor table;
     thead_th := map (set_header_colours cfg) (thead_th table);
     tbody_tr :=
       imap (λ index row,
               let row :=
                 if (index mod 2 =? 0)%nat
                 then set_row_background row (tableEvenBg cfg)
                 else row in
               add_hover_listeners row index)
            (tbody_tr table) |}.

(** The body of a [mouseleave] listener that closed over [index]. *)
Definition on_mouseleave (cfg : ThemeConfig) (row : TableRow) (index : nat) : TableRow :=
  if (index mod 2 =? 0)%nat
  then set_row_background row (tableEvenBg cfg)
  else set_row_background row "".

(** The pointer enters a row: every [mouseenter] listener runs, in the order
    the listeners were added, each reading the configuration of that moment. *)
Definition mouseenter (cfg : ThemeConfig) (row : TableRow) : TableRow :=
  fold_left (λ r _, set_row_background r (tableHoverBg cfg)) (hover_listeners row) row.

(** The pointer leaves a row: every [mouseleave] listener runs. *)
Definition mouseleave (cfg : ThemeConfig) (row : TableRow) : TableRow :=
  fold_left (on_mouseleave cfg) (hover_listeners row) row.



(** A style object that takes the hexadecimal notations of a colour and the
    name [yellow]. *)
Definition is_hex_digit (c : Ascii.ascii) : bool :=
  let n := Ascii.nat_of_ascii c in
  ((48 <=? n) && (n <=? 57) || (65 <=? n) && (n <=? 70) || (97 <=? n) && (n <=? 102))%nat.

Definition hex_or_yellow (value : string) : bool :=
  match value with
  | String "#" digits =>
      forallb is_hex_digit (String.list_ascii_of_string digits) &&
      existsb (Nat.eqb (String.length digits)) [3; 4; 6; 8]%nat
  | _ => String.eqb value "yellow"
  end.

(** A table of two rows, the second with an inline background. *)
Definition plain_row : TableRow :=
  {| row_backgroundColor := ""; row_accepts := hex_or_yellow; hover_listeners := [] |}.

Definition yellow_row : TableRow :=
  {| row_backgroundColor := "yellow"; row_accepts := hex_or_yellow;
     hover_listeners := [] |}.

Definition sample_table : Element :=
  {| classList := ["table"]; backgroundColor := ""; borderColor := "";
     thead_th := [];
     tbody_tr := [plain_row; yellow_row] |}.

(** The installed configuration with a hover colour of its own and an "even"
    background that is no colour. *)
Definition broken_theme : ThemeConfig :=
  {| primaryColor := "#001b52"; primaryHover := "#001540";
     dangerColor := "#dc2626"; dangerHover := "#b91c1c";
     tableHeaderBg := "#001b52"; tableHeaderText := "#ffffff";
     tableEvenBg := "no colour"; tableHoverBg := "#ffeeee";
     navbarBg := "#001b52"; navbarText := "#ffffff";
     loginTitle := "Biomedical Solutions"; loginTitleColor := "#001b52";
     loginBoxBg := "#ffffff"; loginBoxWidth := "400px" |}.

(** ** Comparison lemmas on binary64 values *)

Lemma SFcompare_swap (a b : number) :
  SFcompare b a = CompOpp <$> SFcompare a b.
Proof.
  destruct a as [sa|sa| |sa ma ea], b as [sb|sb| |sb mb eb]; simpl;
    try reflexivity; try (destruct sa; reflexivity); try (destruct sb; reflexivity);
    try (destruct sa, sb; reflexivity).
  destruct sa, sb; simpl; try reflexivity;
    rewrite (Z.compare_antisym ea eb);
    destruct (ea ?= eb)%Z; simpl; try reflexivity;
    rewrite (Pos.compare_cont_antisym ma mb Eq); simpl;
    destruct (Pos.compare_cont Eq mb ma); reflexivity.
Qed.

Lemma SFcompare_refl (a : number) :
  SFcompare a a = if a is S754_nan then None else Some Eq.
Proof.
  destruct a as [s|s| |s m e]; simpl; try reflexivity.
  - destruct s; reflexivity.
  - rewrite Z.compare_refl, Pos.compare_cont_refl. destruct s; reflexivity.
Qed.

Example capture_session_runs :
  run order_1 capture_session empty_world =
  Some {| buttons := refresh order_1 [];
          dialogs := [ {| visible := false; content := LoanSelection pending_1 [loan_1] (Some 0%nat) |};
                       {| visible := true;
                          content := Conversion loan_1
                            [ {| data_index := 0; max_attr := of_Z 5; value := of_Z 5 |};
                              {| data_index := 1; max_attr := of_Z 4; value := zero |} ] |} ];
          msgprints := [];
          alerts := [over_conversion_alert];
          routes := [];
          calls := [ {| method := "nbs_customization.controllers.sales_order.get_pending_loan_waybills";
                        args := SalesOrderArgs "SO-0001" |} ];
          browser := plain_browser |}.
Proof. vm_compute. reflexivity. Qed.

Example of_Z_5 : of_Z 5 = S754_finite false 5629499534213120 (-50).
Proof. reflexivity. Qed.

Example two_below_seven : js_lt (of_Z 2) (of_Z 7) = true ∧ js_gt (of_Z 2) (of_Z 7) = false.
Proof. split; reflexivity. Qed.

Example clamp_above : clampQuantity (of_Z 7) (of_Z 5) = of_Z 5.
Proof. reflexivity. Qed.

Example clamp_below : clampQuantity (of_Z (-3)) (of_Z 4) = zero.
Proof. reflexivity. Qed.

Example clamp_inside : clampQuantity (of_Z 3) (of_Z 4) = of_Z 3.
Proof. reflexivity. Qed.

Example clamp_not_a_number : clampQuantity NaN (of_Z 4) = zero.
Proof. reflexivity. Qed.

Example clamp_negative_max : clampQuantity (of_Z 3) (of_Z (-5)) = zero.
Proof. reflexivity. Qed.

Lemma SFcompare_None (a b : number) :
  SFcompare a b = None → is_nan a = true ∨ is_nan b = true.
Proof.
  destruct a as [sa|sa| |sa ma ea], b as [sb|sb| |sb mb eb]; simpl;
    intros H; try discriminate H; auto.
Qed.

Lemma js_lt_irrefl (a : number) : js_lt a a = false.
Proof.
  unfold js_lt, SFltb. rewrite SFcompare_refl. destruct a; reflexivity.
Qed.

Lemma js_gt_irrefl (a : number) : js_gt a a = false.
Proof. exact (js_lt_irrefl a). Qed.

Lemma js_le_refl (a : number) : is_nan a = false → js_le a a = true.
Proof.
  unfold js_le, SFleb. rewrite SFcompare_refl. destruct a; simpl; congruence.
Qed.

Lemma js_lt_asym (a b : number) : js_lt a b = true → js_lt b a = false.
Proof.
  unfold js_lt, SFltb. rewrite (SFcompare_swap a b).
  destruct (SFcompare a b) as [[]|]; simpl; congruence.
Qed.

Lemma js_le_of_not_lt (a b : number) :
  is_nan a = false → is_nan b = false → js_lt a b = false → js_le b a = true.
Proof.
  intros Ha Hb. unfold js_lt, js_le, SFltb, SFleb. rewrite (SFcompare_swap a b).
  destruct (SFcompare a b) as [[]|] eqn:E; simpl; try congruence.
  apply SFcompare_None in E. destruct E; congruence.
Qed.

Lemma js_le_not_gt (a b : number) : js_le a b = true → js_gt a b = false.
Proof.
  unfold js_le, js_gt, SFltb, SFleb. rewrite (SFcompare_swap a b).
  destruct (SFcompare a b) as [[]|]; simpl; congruence.
Qed.

Lemma js_le_not_nan (a b : number) :
  js_le a b = true → is_nan a = false ∧ is_nan b = false.
Proof.
  unfold js_le, SFleb.
  destruct a as [sa|sa| |sa ma ea], b as [sb|sb| |sb mb eb]; simpl; auto; discriminate.
Qed.

Lemma or_zero_not_nan (x : number) : is_nan (or_zero x) = false.
Proof. destruct x; reflexivity. Qed.

Lemma or_zero_idem (x : number) : or_zero (or_zero x) = or_zero x.
Proof. destruct x; reflexivity. Qed.

Lemma or_zero_truthy (x : number) : truthy (or_zero x) = truthy x.
Proof. destruct x; reflexivity. Qed.

(** [x || 0] differs from a number [x] at most in the sign of zero, which no
    comparison sees. *)
Lemma SFcompare_or_zero_r (a b : number) :
  is_nan b = false → SFcompare a (or_zero b) = SFcompare a b.
Proof.
  destruct b as [sb|sb| |sb mb eb]; simpl; try reflexivity; try discriminate;
    intros _; destruct a; reflexivity.
Qed.

Lemma SFcompare_or_zero_l (a b : number) :
  is_nan a = false → SFcompare (or_zero a) b = SFcompare a b.
Proof.
  destruct a as [sa|sa| |sa ma ea]; simpl; try reflexivity; try discriminate;
    intros _; destruct b; reflexivity.
Qed.

(** Above zero is the same as truthy for a quantity that is not below zero. *)
Lemma truthy_positive (q : number) : js_le zero q = true → truthy q = js_gt q zero.
Proof.
  destruct q as [s|s| |s m e]; simpl; try reflexivity; try discriminate;
    destruct s; simpl; reflexivity || discriminate.
Qed.

Lemma negative_not_above (x m : number) :
  js_lt x zero = true → js_le zero m = true → js_gt x m = false.
Proof.
  destruct x as [sx|sx| |sx mx ex]; try discriminate;
    destruct sx; try discriminate; intros _;
    destruct m as [sm|sm| |sm mm em]; try discriminate;
    try (destruct sm; simpl; reflexivity || discriminate); reflexivity.
Qed.

(** ** The [input] handler *)

Ltac case_conditions :=
  repeat match goal with |- context [if ?b then _ else _] => destruct b end.

Lemma on_input_cases (inp : ConvertInput) :
  fst (on_input inp) =
  if js_gt (or_zero (value inp)) (or_zero (max_attr inp))
  then (if js_lt (or_zero (max_attr inp)) zero
        then set_val inp zero
        else set_val inp (or_zero (max_attr inp)))
  else (if js_lt (or_zero (value inp)) zero then set_val inp zero else inp).
Proof.
  unfold on_input.
  destruct (js_gt (or_zero (value inp)) (or_zero (max_attr inp))); simpl;
    [destruct (js_lt (or_zero (max_attr inp)) zero)
    |destruct (js_lt (or_zero (value inp)) zero)]; reflexivity.
Qed.

Lemma on_input_alerts (inp : ConvertInput) :
  snd (on_input inp) =
  if js_gt (or_zero (value inp)) (or_zero (max_attr inp))
  then [over_conversion_alert] else [].
Proof.
  unfold on_input.
  destruct (js_gt (or_zero (value inp)) (or_zero (max_attr inp))); reflexivity.
Qed.

Lemma on_input_max_attr (inp : ConvertInput) :
  max_attr (fst (on_input inp)) = max_attr inp.
Proof.
  rewrite on_input_cases. case_conditions; reflexivity.
Qed.

Lemma on_input_data_index (inp : ConvertInput) :
  data_index (fst (on_input inp)) = data_index inp.
Proof.
  rewrite on_input_cases. case_conditions; reflexivity.
Qed.

Lemma on_input_in_range (inp : ConvertInput) : in_range (fst (on_input inp)).
Proof.
  unfold in_range. rewrite on_input_max_attr. unfold requested_qty.
  rewrite on_input_cases.
  pose proof (or_zero_not_nan (value inp)) as Hv.
  pose proof (or_zero_not_nan (max_attr inp)) as Hm.
  destruct (js_gt (or_zero (value inp)) (or_zero (max_attr inp))) eqn:Hgt.
  - destruct (js_lt (or_zero (max_attr inp)) zero) eqn:Hneg; simpl.
    + split; [reflexivity|]. intros H0.
      apply js_le_not_gt in H0. unfold js_gt, js_lt in *. congruence.
    + rewrite or_zero_idem. split.
      * apply js_le_of_not_lt; auto.
      * intros _. apply js_le_refl; auto.
  - destruct (js_lt (or_zero (value inp)) zero) eqn:Hneg; simpl.
    + split; [reflexivity|]. auto.
    + split.
      * apply js_le_of_not_lt; auto.
      * intros _. apply js_le_of_not_lt; auto.
Qed.

Lemma on_input_idem (inp : ConvertInput) :
  fst (on_input (fst (on_input inp))) = fst (on_input inp).
Proof.
  rewrite (on_input_cases (fst (on_input inp))).
  rewrite on_input_max_attr.
  rewrite (on_input_cases inp).
  destruct (js_gt (or_zero (value inp)) (or_zero (max_attr inp))) eqn:Hgt.
  - destruct (js_lt (or_zero (max_attr inp)) zero) eqn:Hneg; simpl.
    + change (js_gt (or_zero zero) (or_zero (max_attr inp)))
        with (js_lt (or_zero (max_attr inp)) zero).
      rewrite Hneg. reflexivity.
    + rewrite or_zero_idem, js_gt_irrefl, Hneg. reflexivity.
  - destruct (js_lt (or_zero (value inp)) zero) eqn:Hneg; simpl.
    + change (or_zero zero) with zero.
      destruct (js_gt zero (or_zero (max_attr inp))) eqn:H0.
      * unfold js_gt in H0. fold (js_lt (or_zero (max_attr inp)) zero) in H0.
        rewrite H0. reflexivity.
      * reflexivity.
    + rewrite Hgt, Hneg. reflexivity.
Qed.

Lemma on_input_requested (inp : ConvertInput) :
  requested_qty (fst (on_input (set_val inp (requested_qty inp)))) =
  requested_qty (fst (on_input inp)).
Proof.
  rewrite !on_input_cases. unfold requested_qty. simpl. rewrite !or_zero_idem.
  case_conditions; simpl; rewrite ?or_zero_idem; reflexivity.
Qed.

(** ** Clamping *)

(** C3. For every maximum that is not below zero and every typed input, the
    clamped quantity lies between zero and the maximum; an input below zero
    and a non-numeric input give zero, an input above the maximum gives the
    maximum. *)
Theorem clampQuantity_within_bounds (x max : number) :
  js_le zero max = true →
  js_le zero (clampQuantity x max) = true ∧
  js_le (clampQuantity x max) max = true ∧
  (js_lt x zero = true → clampQuantity x max = zero) ∧
  (is_nan x = true → clampQuantity x max = zero) ∧
  (js_gt x max = true → SFeqb (clampQuantity x max) max = true).
Proof.
  intros Hmax.
  destruct (js_le_not_nan _ _ Hmax) as [_ Hnan].
  assert (Hmax' : js_le zero (or_zero max) = true).
  { unfold js_le, SFleb in *. rewrite SFcompare_or_zero_r; auto. }
  assert (Hnotneg : js_lt (or_zero max) zero = false).
  { exact (js_le_not_gt _ _ Hmax'). }
  unfold clampQuantity, type_into.
  set (inp := set_val {| data_index := 0; max_attr := max; value := NaN |} x).
  destruct (on_input_in_range inp) as [Hlo Hhi].
  rewrite on_input_max_attr in Hhi. simpl in Hhi. specialize (Hhi Hmax').
  split; [exact Hlo|]. split.
  { unfold js_le, SFleb in *. rewrite SFcompare_or_zero_r in Hhi; auto. }
  unfold requested_qty. rewrite on_input_cases. simpl.
  split; [|split].
  - intros Hneg.
    assert (Hx : or_zero x = x).
    { destruct x as [s|s| |s m e]; try discriminate; reflexivity. }
    rewrite Hx, (negative_not_above x (or_zero max) Hneg Hmax'), Hneg.
    reflexivity.
  - intros Hx. destruct x; try discriminate. simpl.
    change (or_zero S754_nan) with zero.
    rewrite (js_le_not_gt _ _ Hmax'). reflexivity.
  - intros Hgt.
    assert (Hx : is_nan x = false).
    { unfold js_gt, SFltb in Hgt. destruct (SFcompare max x) eqn:E; [|discriminate].
      destruct x; try reflexivity. destruct max; discriminate. }
    assert (Hgt' : js_gt (or_zero x) (or_zero max) = true).
    { unfold js_gt, SFltb in *.
      rewrite SFcompare_or_zero_l, SFcompare_or_zero_r; auto. }
    rewrite Hgt', Hnotneg. simpl. rewrite or_zero_idem.
    unfold SFeqb. rewrite SFcompare_or_zero_l, SFcompare_refl; auto.
    destruct max; try reflexivity. discriminate.
Qed.

Lemma clampQuantity_within_bounds_witness :
  js_le zero (of_Z 5) = true ∧
  js_le zero (clampQuantity (of_Z 7) (of_Z 5)) = true ∧
  js_le (clampQuantity (of_Z 7) (of_Z 5)) (of_Z 5) = true ∧
  (js_lt (of_Z 7) zero = true → clampQuantity (of_Z 7) (of_Z 5) = zero) ∧
  (is_nan (of_Z 7) = true → clampQuantity (of_Z 7) (of_Z 5) = zero) ∧
  (js_gt (of_Z 7) (of_Z 5) = true →
   SFeqb (clampQuantity (of_Z 7) (of_Z 5)) (of_Z 5) = true).
Proof.
  split; [reflexivity|].
  apply (clampQuantity_within_bounds (of_Z 7) (of_Z 5)). reflexivity.
Defined.

(** C8. Clamping is idempotent, for every input and every maximum: clamping
    a clamped quantity again with the same maximum returns it unchanged, and
    running the handler a second time leaves the element as the first run
    left it. *)
Theorem clampQuantity_idempotent (x max : number) :
  clampQuantity (clampQuantity x max) max = clampQuantity x max ∧
  ∀ inp, fst (on_input (fst (on_input inp))) = fst (on_input inp).
Proof.
  split; [|exact on_input_idem].
  unfold clampQuantity, type_into.
  set (inp := set_val {| data_index := 0; max_attr := max; value := NaN |} x).
  set (e1 := fst (on_input inp)).
  assert (He : set_val {| data_index := 0; max_attr := max; value := NaN |}
                 (requested_qty e1) = set_val e1 (requested_qty e1)).
  { unfold set_val. simpl. subst e1.
    rewrite on_input_data_index, on_input_max_attr. reflexivity. }
  rewrite He, on_input_requested. subst e1. rewrite on_input_idem. reflexivity.
Qed.

(** ** The entry point on the Sales Order form *)

Lemma add_linked_document_buttons_no_entry (doc : SalesOrder) :
  existsb starts_workflow (add_linked_document_buttons doc []) = false.
Proof.
  unfold add_linked_document_buttons.
  destruct (truthy_str (custom_customer_delivery_note doc)),
           (truthy_str (custom_promissory_note doc)); reflexivity.
Qed.

(** For a numeric percentage, "not at or above 100" is "below 100". *)
Lemma not_ge_iff_lt (p c : number) :
  is_nan p = false → is_nan c = false → (js_ge p c = false ↔ js_lt p c = true).
Proof.
  intros Hp Hc. unfold js_ge, js_lt, SFleb, SFltb. rewrite (SFcompare_swap p c).
  destruct (SFcompare p c) as [[]|] eqn:E; simpl; try (split; congruence).
  apply SFcompare_None in E. destruct E; congruence.
Qed.

(** C7, as the code has it. The button that starts the workflow is on the
    form exactly when the document is submitted (docstatus 1), has a
    customer, and its delivered percentage is not at or above 100. *)
Theorem entry_point_offered_iff (doc : SalesOrder) :
  offers_loan_conversion doc = true ↔
  docstatus doc = 1%Z ∧ truthy_str (customer doc) = true ∧
  js_ge (per_delivered doc) (of_Z 100) = false.
Proof.
  unfold offers_loan_conversion, refresh.
  destruct (docstatus doc =? 1)%Z eqn:Hs; cbn [negb existsb].
  - apply Z.eqb_eq in Hs.
    destruct (truthy_str (customer doc)); cbn [negb].
    + destruct (js_ge (per_delivered doc) (of_Z 100)).
      * rewrite add_linked_document_buttons_no_entry. split; [discriminate|].
        intros (_ & _ & H). discriminate H.
      * rewrite existsb_app, add_linked_document_buttons_no_entry.
        split; auto.
    + rewrite add_linked_document_buttons_no_entry. split; [discriminate|].
      intros (_ & H & _). discriminate H.
  - apply Z.eqb_neq in Hs. split; [discriminate|]. intros (H & _). contradiction.
Qed.

(** C7, as stated, fails: a submitted order delivered at 0% with no customer
    gets no button. *)
Lemma entry_point_needs_customer :
  ¬ (offers_loan_conversion order_without_customer = true ↔
     docstatus order_without_customer = 1%Z ∧
     js_lt (per_delivered order_without_customer) (of_Z 100) = true).
Proof.
  intros [_ H].
  assert (Hno : offers_loan_conversion order_without_customer = false) by reflexivity.
  rewrite H in Hno; [discriminate|]. split; reflexivity.
Qed.

(** ** Pending loans *)

(** C6. An empty list of pending loan waybills is not an error: the handler
    completes, shows the "No Pending Loans" message, and opens no dialog. *)
Theorem no_pending_loans_opens_nothing (doc : SalesOrder) (w : World)
    (cust : option string) (so : string) :
  ∃ w',
    check_pending_loans doc
      (Success (Some {| data_customer := cust; data_sales_order := so;
                        loan_waybills := Some [] |})) w = Some w' ∧
    msgprints w' = msgprints w ++ [no_pending_loans_msg] ∧
    dialogs w' = dialogs w ∧
    routes w' = routes w.
Proof.
  eexists. split; [reflexivity|]. simpl. auto.
Qed.

(** C10. "Convert Selected" with no loan checked only shows the message
    asking to select one: the list dialog stays as it is, visible, and no
    other dialog is opened. *)
Theorem convert_without_selection_is_guarded (doc : SalesOrder) (d : nat) (w : World)
    (data : PendingLoans) (loans : list Loan) :
  visible_content d w = Some (LoanSelection data loans None) →
  ∃ w',
    step doc (ClickConvertSelected d) w = Some w' ∧
    msgprints w' = msgprints w ++ [select_loan_msg] ∧
    dialogs w' = dialogs w ∧
    visible_content d w' = Some (LoanSelection data loans None) ∧
    calls w' = calls w.
Proof.
  intros Hd. simpl. rewrite Hd. eexists. split; [reflexivity|].
  simpl. repeat split; auto.
Qed.

Lemma convert_without_selection_is_guarded_witness :
  visible_content 0 (world_after list_session)
    = Some (LoanSelection pending_1 [loan_1] None) ∧
  ∃ w',
    step order_1 (ClickConvertSelected 0) (world_after list_session) = Some w' ∧
    msgprints w' = msgprints (world_after list_session) ++ [select_loan_msg] ∧
    dialogs w' = dialogs (world_after list_session) ∧
    visible_content 0 w' = Some (LoanSelection pending_1 [loan_1] None) ∧
    calls w' = calls (world_after list_session).
Proof.
  split; [reflexivity|].
  apply (convert_without_selection_is_guarded order_1 0 (world_after list_session)
           pending_1 [loan_1]).
  reflexivity.
Defined.

(** ** Submitting the conversion dialog *)

Lemma visible_content_lookup (d : nat) (w : World) (c : DialogContent) :
  visible_content d w = Some c ↔
  dialogs w !! d = Some {| visible := true; content := c |}.
Proof.
  unfold visible_content. split.
  - destruct (dialogs w !! d) as [[[] c']|]; simpl; congruence.
  - intros ->. reflexivity.
Qed.

Lemma hide_visible (d : nat) (w : World) (c : DialogContent) :
  visible_content d w = Some c →
  hide d w = with_dialogs (<[d := {| visible := false; content := c |}]> (dialogs w)) w
  ∧ visible_content d (hide d w) = None.
Proof.
  intros H. apply visible_content_lookup in H. unfold hide. rewrite H. simpl.
  split; [reflexivity|].
  unfold visible_content. simpl.
  rewrite list_lookup_insert_eq by (eapply lookup_lt_Some; eauto). reflexivity.
Qed.

Lemma zero_not_positive (q : number) : SFeqb q zero = true → truthy q = false ∧ js_gt q zero = false.
Proof.
  destruct q as [s|s| |s m e]; simpl; auto; destruct s; discriminate.
Qed.

Lemma collect_all_zero (loan : Loan) (inputs : list ConvertInput) :
  Forall (λ inp, SFeqb (requested_qty inp) zero = true) inputs →
  collect_conversion_data inputs loan = Some [].
Proof.
  induction 1 as [|inp rest Hz _ IH]; simpl; [reflexivity|].
  apply zero_not_positive in Hz. unfold requested_qty in Hz.
  destruct Hz as [-> _]. exact IH.
Qed.

Lemma all_zero_none_positive (its : list LoanItem) (inputs : list ConvertInput) :
  Forall (λ inp, SFeqb (requested_qty inp) zero = true) inputs →
  existsb (λ l, js_gt (requestedQty l) zero)
    (zip_with (λ it inp, {| source := it; requestedQty := requested_qty inp |})
       its inputs) = false.
Proof.
  intros H. revert its. induction H as [|inp rest Hz _ IH]; intros [|it its];
    simpl; try reflexivity.
  apply zero_not_positive in Hz. destruct Hz as [_ ->]. apply IH.
Qed.

(** C2. Submitting a quantity capture whose requested quantities are all
    zero shows the local message and changes nothing else: the dialogs are
    as they were and no remote call is sent, whatever the server would have
    answered. *)
Theorem submit_all_zero_is_rejected_locally (doc : SalesOrder) (d : nat) (w : World)
    (loan : Loan) (inputs : list ConvertInput) (r : Response string) :
  visible_content d w = Some (Conversion loan inputs) →
  Forall (λ inp, SFeqb (requested_qty inp) zero = true) inputs →
  hasAnyPositiveQuantity (request_lines loan inputs) = false ∧
  ∃ w',
    step doc (ClickCreateConversionWaybill d r) w = Some w' ∧
    msgprints w' = msgprints w ++ [enter_quantity_msg] ∧
    dialogs w' = dialogs w ∧
    calls w' = calls w ∧
    routes w' = routes w.
Proof.
  intros Hd Hz. split.
  - apply all_zero_none_positive. exact Hz.
  - simpl. rewrite Hd. unfold conversion_primary_action.
    rewrite (collect_all_zero loan inputs Hz). simpl.
    eexists. split; [reflexivity|]. simpl. auto.
Qed.

Lemma submit_all_zero_is_rejected_locally_witness :
  visible_content 1 (world_after open_session)
    = Some (Conversion loan_1 (render_conversion_table (items loan_1))) ∧
  Forall (λ inp, SFeqb (requested_qty inp) zero = true)
    (render_conversion_table (items loan_1)) ∧
  hasAnyPositiveQuantity
    (request_lines loan_1 (render_conversion_table (items loan_1))) = false ∧
  ∃ w',
    step order_1 (ClickCreateConversionWaybill 1 (Success (Some "DN-0001")))
      (world_after open_session) = Some w' ∧
    msgprints w' = msgprints (world_after open_session) ++ [enter_quantity_msg] ∧
    dialogs w' = dialogs (world_after open_session) ∧
    calls w' = calls (world_after open_session) ∧
    routes w' = routes (world_after open_session).
Proof.
  split; [reflexivity|]. split; [repeat constructor|].
  apply (submit_all_zero_is_rejected_locally order_1 1 (world_after open_session)
           loan_1 (render_conversion_table (items loan_1))
           (Success (Some "DN-0001"))).
  - reflexivity.
  - repeat constructor.
Defined.

Lemma submit_sends (doc : SalesOrder) (d : nat) (w : World) (loan : Loan)
    (inputs : list ConvertInput) (payload : list PayloadItem) (r : Response string) :
  visible_content d w = Some (Conversion loan inputs) →
  collect_conversion_data inputs loan = Some payload →
  payload ≠ [] →
  step doc (ClickCreateConversionWaybill d r) w =
  create_draft_delivery_note doc loan payload r (hide d w).
Proof.
  intros Hd Hc Hne. simpl. rewrite Hd. unfold conversion_primary_action. rewrite Hc.
  destruct payload; [contradiction|]. reflexivity.
Qed.

(** C9. When the creation call succeeds with a new document id, the
    conversion dialog is closed (hidden), one call was sent, and exactly one
    navigation, to the Delivery Note of that id, is added. *)
Theorem creation_success_navigates_once (doc : SalesOrder) (d : nat) (w : World)
    (loan : Loan) (inputs : list ConvertInput) (payload : list PayloadItem)
    (docname : string) :
  visible_content d w = Some (Conversion loan inputs) →
  collect_conversion_data inputs loan = Some payload →
  payload ≠ [] →
  docname ≠ "" →
  ∃ w',
    step doc (ClickCreateConversionWaybill d (Success (Some docname))) w = Some w' ∧
    routes w' = routes w ++ [{| route_view := "Form"; route_doctype := "Delivery Note";
                                route_name := docname |}] ∧
    visible_content d w' = None ∧
    dialogs w' = <[d := {| visible := false; content := Conversion loan inputs |}]> (dialogs w) ∧
    calls w' = calls w ++ [creation_call doc loan payload] ∧
    msgprints w' = msgprints w.
Proof.
  intros Hd Hc Hne Hname.
  rewrite (submit_sends doc d w loan inputs payload _ Hd Hc Hne).
  destruct (hide_visible d w _ Hd) as [Hh Hv].
  unfold create_draft_delivery_note, frappe_call. simpl.
  assert (Ht : String.eqb docname "" = false) by (apply String.eqb_neq; exact Hname).
  rewrite Ht. simpl. eexists. split; [reflexivity|].
  simpl. rewrite Hh. simpl. repeat split; auto.
  unfold visible_content in *. simpl. rewrite Hh in Hv. exact Hv.
Qed.

Lemma creation_success_navigates_once_witness :
  visible_content 1 (world_after capture_session)
    = Some (Conversion loan_1 captured_inputs) ∧
  collect_conversion_data captured_inputs loan_1 = Some captured_payload ∧
  captured_payload ≠ [] ∧
  "DN-0001" ≠ "" ∧
  ∃ w',
    step order_1 (ClickCreateConversionWaybill 1 (Success (Some "DN-0001")))
      (world_after capture_session) = Some w' ∧
    routes w' = routes (world_after capture_session) ++
                [{| route_view := "Form"; route_doctype := "Delivery Note";
                    route_name := "DN-0001" |}] ∧
    visible_content 1 w' = None ∧
    dialogs w' = <[1%nat := {| visible := false;
                               content := Conversion loan_1 captured_inputs |}]>
                   (dialogs (world_after capture_session)) ∧
    calls w' = calls (world_after capture_session) ++
               [creation_call order_1 loan_1 captured_payload] ∧
    msgprints w' = msgprints (world_after capture_session).
Proof.
  split; [reflexivity|]. split; [reflexivity|].
  split; [discriminate|]. split; [discriminate|].
  apply (creation_success_navigates_once order_1 1 (world_after capture_session)
           loan_1 captured_inputs captured_payload "DN-0001").
  - reflexivity.
  - reflexivity.
  - discriminate.
  - discriminate.
Defined.

(** C1, as the code has it. When the creation call fails, the conversion
    dialog, hidden just before the call was sent, stays hidden with the
    entered quantities still in it; the script shows no message of its own,
    does not navigate, and sent the call once. *)
Theorem creation_failure_leaves_dialog_hidden (doc : SalesOrder) (d : nat) (w : World)
    (loan : Loan) (inputs : list ConvertInput) (payload : list PayloadItem)
    (reason : string) :
  visible_content d w = Some (Conversion loan inputs) →
  collect_conversion_data inputs loan = Some payload →
  payload ≠ [] →
  ∃ w',
    step doc (ClickCreateConversionWaybill d (Failure reason)) w = Some w' ∧
    visible_content d w' = None ∧
    dialogs w' = <[d := {| visible := false; content := Conversion loan inputs |}]> (dialogs w) ∧
    msgprints w' = msgprints w ∧
    alerts w' = alerts w ∧
    routes w' = routes w ∧
    calls w' = calls w ++ [creation_call doc loan payload].
Proof.
  intros Hd Hc Hne.
  rewrite (submit_sends doc d w loan inputs payload _ Hd Hc Hne).
  destruct (hide_visible d w _ Hd) as [Hh Hv].
  unfold create_draft_delivery_note, frappe_call. simpl.
  eexists. split; [reflexivity|].
  simpl. rewrite Hh. simpl. repeat split; auto.
  unfold visible_content in *. simpl. rewrite Hh in Hv. exact Hv.
Qed.

Lemma creation_failure_leaves_dialog_hidden_witness :
  visible_content 1 (world_after capture_session)
    = Some (Conversion loan_1 captured_inputs) ∧
  collect_conversion_data captured_inputs loan_1 = Some captured_payload ∧
  captured_payload ≠ [] ∧
  ∃ w',
    step order_1 (ClickCreateConversionWaybill 1 (Failure "insufficient stock"))
      (world_after capture_session) = Some w' ∧
    visible_content 1 w' = None ∧
    dialogs w' = <[1%nat := {| visible := false;
                               content := Conversion loan_1 captured_inputs |}]>
                   (dialogs (world_after capture_session)) ∧
    msgprints w' = msgprints (world_after capture_session) ∧
    alerts w' = alerts (world_after capture_session) ∧
    routes w' = routes (world_after capture_session) ∧
    calls w' = calls (world_after capture_session) ++
               [creation_call order_1 loan_1 captured_payload].
Proof.
  split; [reflexivity|]. split; [reflexivity|]. split; [discriminate|].
  apply (creation_failure_leaves_dialog_hidden order_1 1 (world_after capture_session)
           loan_1 captured_inputs captured_payload "insufficient stock").
  - reflexivity.
  - reflexivity.
  - discriminate.
Defined.

Example failed_submission :
  step order_1 (ClickCreateConversionWaybill 1 (Failure "insufficient stock"))
    (world_after capture_session) =
  Some {| buttons := refresh order_1 [];
          dialogs := [ {| visible := false;
                          content := LoanSelection pending_1 [loan_1] (Some 0%nat) |};
                       {| visible := false;
                          content := Conversion loan_1 captured_inputs |} ];
          msgprints := [];
          alerts := [over_conversion_alert];
          routes := [];
          calls := [ {| method := "nbs_customization.controllers.sales_order.get_pending_loan_waybills";
                        args := SalesOrderArgs "SO-0001" |};
                     creation_call order_1 loan_1 captured_payload ];
          browser := plain_browser |}.
Proof. vm_compute. reflexivity. Qed.

(** A hidden dialog takes no further input: nothing can be typed into it
    or submitted from it. *)
Lemma hidden_dialog_is_inert (doc : SalesOrder) (d : nat) (w : World) :
  visible_content d w = None →
  (∀ index raw, step doc (TypeQuantity d index raw) w = Some w) ∧
  (∀ r, step doc (ClickCreateConversionWaybill d r) w = Some w).
Proof. intros H. split; intros; simpl; rewrite H; reflexivity. Qed.

(** C1, as stated, fails: after the session in which 5 gloves are requested,
    a creation call failing with "insufficient stock" does not bring the
    conversion dialog back. *)
Lemma failure_does_not_return_to_capture :
  ¬ failure_returns_to_capture order_1 1 "insufficient stock"
      (world_after capture_session).
Proof.
  intros (w' & loan & inputs & Hstep & _ & Hafter & _).
  vm_compute in Hstep. injection Hstep as <-.
  vm_compute in Hafter. discriminate Hafter.
Qed.

(** ** Captures that hold the rendered lines *)

Lemma below_negative (m v : number) :
  js_lt m zero = true → is_nan v = false → js_gt v m = false → js_lt v zero = true.
Proof.
  destruct m as [sm|sm| |sm mm em]; try discriminate;
    destruct sm; try discriminate; intros _;
    destruct v as [sv|sv| |sv mv ev]; try discriminate;
    try destruct sv; simpl; intros; try reflexivity; discriminate.
Qed.

Lemma on_input_negative_max (inp : ConvertInput) :
  js_lt (or_zero (max_attr inp)) zero = true →
  requested_qty (fst (on_input inp)) = zero.
Proof.
  intros Hneg. unfold requested_qty. rewrite on_input_cases, Hneg.
  destruct (js_gt (or_zero (value inp)) (or_zero (max_attr inp))) eqn:Hgt;
    [reflexivity|].
  rewrite (below_negative _ _ Hneg (or_zero_not_nan (value inp)) Hgt). reflexivity.
Qed.

Lemma render_conversion_table_wf (loan : Loan) :
  inputs_wf loan (render_conversion_table (items loan)).
Proof.
  split.
  - unfold render_conversion_table. apply length_imap.
  - intros index inp H. unfold render_conversion_table in H.
    apply list_lookup_imap_Some in H. destruct H as (it & Hit & ->).
    split; [reflexivity|]. exists it. split; [exact Hit|]. split; [reflexivity|].
    split; [|reflexivity].
    split; [reflexivity|]. intros H. exact H.
Qed.

Lemma type_into_wf (loan : Loan) (inputs : list ConvertInput) (index : nat)
    (inp : ConvertInput) (raw : number) :
  inputs_wf loan inputs → inputs !! index = Some inp →
  inputs_wf loan (<[index := fst (type_into inp raw)]> inputs).
Proof.
  intros [Hlen Hwf] Hinp. split.
  - rewrite length_insert. exact Hlen.
  - intros j inp' Hj. apply list_lookup_insert_Some in Hj.
    destruct Hj as [(<- & <- & _)|(_ & Hj)]; [|exact (Hwf _ _ Hj)].
    destruct (Hwf _ _ Hinp) as (Hidx & it & Hit & Hmax & _).
    unfold type_into. split.
    + rewrite on_input_data_index. exact Hidx.
    + exists it. split; [exact Hit|]. split.
      * rewrite on_input_max_attr. exact Hmax.
      * split; [apply on_input_in_range|].
        rewrite on_input_max_attr. apply on_input_negative_max.
Qed.

Lemma create_draft_delivery_note_effects (doc : SalesOrder) (loan : Loan)
    (payload : list PayloadItem) (r : Response string) (w : World) :
  ∃ w', create_draft_delivery_note doc loan payload r w = Some w' ∧
        dialogs w' = dialogs w ∧
        calls w' = calls w ++ [creation_call doc loan payload] ∧
        browser w' = browser w.
Proof.
  unfold create_draft_delivery_note, frappe_call.
  destruct r as [[docname|]|reason]; simpl;
    try destruct (negb (negb (String.eqb docname "")));
    eexists; split; try reflexivity; repeat split; reflexivity.
Qed.

Lemma collect_conversion_data_lines (loan : Loan) (inputs : list ConvertInput) :
  ∀ its : list LoanItem,
    length inputs = length its →
    (∀ j inp, inputs !! j = Some inp →
       items loan !! data_index inp = its !! j ∧
       js_le zero (requested_qty inp) = true) →
    collect_conversion_data inputs loan =
    Some (map (payload_item loan)
            (List.filter (λ l, js_gt (requestedQty l) zero)
               (zip_with (λ it inp, {| source := it; requestedQty := requested_qty inp |})
                  its inputs))).
Proof.
  induction inputs as [|inp rest IH]; intros [|it its] Hlen H;
    try discriminate Hlen; [reflexivity|].
  destruct (H 0%nat inp eq_refl) as [Hsrc Hq]. simpl in Hsrc.
  injection Hlen as Hlen.
  specialize (IH its Hlen (λ j inp' Hj, H (S j) inp' Hj)).
  simpl. fold (requested_qty inp).
  rewrite (truthy_positive _ Hq).
  destruct (js_gt (requested_qty inp) zero); simpl.
  - rewrite Hsrc, IH. reflexivity.
  - exact IH.
Qed.

Lemma collect_conversion_data_wf (loan : Loan) (inputs : list ConvertInput) :
  inputs_wf loan inputs →
  collect_conversion_data inputs loan =
  Some (submission_payload loan (request_lines loan inputs)).
Proof.
  intros [Hlen Hwf]. unfold submission_payload, request_lines.
  apply collect_conversion_data_lines; [exact Hlen|].
  intros j inp Hj. destruct (Hwf _ _ Hj) as (Hidx & it & Hit & _ & (Hq & _) & _).
  rewrite Hidx. split; [reflexivity|exact Hq].
Qed.

(** ** The submission payload and the per-line invariant *)

Lemma positive_line_in_payload (loan : Loan) (lines : list ConversionRequestLine) :
  hasAnyPositiveQuantity lines = true → submission_payload loan lines ≠ [].
Proof.
  unfold hasAnyPositiveQuantity, submission_payload.
  induction lines as [|l lines IH]; simpl; [discriminate|].
  destruct (js_gt (requestedQty l) zero); simpl; [discriminate|exact IH].
Qed.

Lemma js_gt_not_nan (a b : number) :
  js_gt a b = true → is_nan a = false ∧ is_nan b = false.
Proof.
  unfold js_gt, SFltb.
  destruct a as [sa|sa| |sa ma ea], b as [sb|sb| |sb mb eb]; simpl; auto; discriminate.
Qed.

Lemma request_lines_effective_limits (loan : Loan) (inputs : list ConvertInput) :
  inputs_wf loan inputs →
  Forall effective_limits (request_lines loan inputs).
Proof.
  intros [_ Hwf]. apply Forall_lookup. intros i l Hl.
  unfold request_lines in Hl. apply lookup_zip_with_Some in Hl.
  destruct Hl as (it & inp & -> & Hit & Hinp).
  destruct (Hwf _ _ Hinp) as (_ & it' & Hit' & Hmax & (Hlo & Hhi) & Hneg).
  assert (it' = it) as -> by congruence.
  rewrite Hmax, or_zero_idem in Hhi, Hneg.
  unfold effective_limits, maxConvertibleQty. simpl. auto.
Qed.

Lemma request_lines_within_limits (loan : Loan) (inputs : list ConvertInput) :
  inputs_wf loan inputs →
  Forall (λ l, js_le zero (maxConvertibleQty l) = true → within_limits l)
    (request_lines loan inputs).
Proof.
  intros Hwf. eapply Forall_impl; [apply request_lines_effective_limits; exact Hwf|].
  intros l (Hlo & Hhi & _) H0. split; auto.
Qed.

Lemma request_lines_length (loan : Loan) (inputs : list ConvertInput) :
  inputs_wf loan inputs → length (request_lines loan inputs) = length (items loan).
Proof.
  intros [Hl _]. unfold request_lines. rewrite length_zip_with, Hl. apply Nat.min_id.
Qed.

(** C4. In a quantity capture that holds the lines the script rendered for
    its loan (one input per loan item, in item order), the collected payload
    is the ordered sequence of the request lines whose quantity is above
    zero, each with the item code, the quantity and the batch, serial
    number, warehouse and expiry date of its source item; when some quantity
    is above zero, submitting sends exactly that payload. *)
Theorem payload_is_positive_lines (doc : SalesOrder) (w : World)
    (d : nat) (loan : Loan) (inputs : list ConvertInput) :
  visible_content d w = Some (Conversion loan inputs) →
  inputs_wf loan inputs →
  length (request_lines loan inputs) = length (items loan) ∧
  collect_conversion_data inputs loan =
    Some (submission_payload loan (request_lines loan inputs)) ∧
  (hasAnyPositiveQuantity (request_lines loan inputs) = true →
   ∀ r, ∃ w',
     step doc (ClickCreateConversionWaybill d r) w = Some w' ∧
     calls w' = calls w ++
       [creation_call doc loan (submission_payload loan (request_lines loan inputs))]).
Proof.
  intros Hd Hwf.
  pose proof (collect_conversion_data_wf loan inputs Hwf) as Hc.
  split; [exact (request_lines_length loan inputs Hwf)|]. split; [exact Hc|].
  intros Hpos r.
  rewrite (submit_sends doc d w loan inputs _ r Hd Hc
             (positive_line_in_payload loan _ Hpos)).
  destruct (create_draft_delivery_note_effects doc loan
              (submission_payload loan (request_lines loan inputs)) r (hide d w))
    as (w' & -> & _ & Hcalls & _).
  exists w'. split; [reflexivity|]. rewrite Hcalls.
  unfold hide. destruct (dialogs w !! d); reflexivity.
Qed.

Lemma captured_inputs_wf : inputs_wf loan_1 captured_inputs.
Proof.
  split; [reflexivity|]. intros [|[|index]] inp H; try discriminate H;
    injection H as <-; (split; [reflexivity|]);
    [exists gloves|exists syringes];
    (split; [reflexivity|]); (split; [reflexivity|]);
    (split; [split; [reflexivity|intros _; reflexivity]|intros H; discriminate H]).
Defined.

Lemma payload_is_positive_lines_witness :
  visible_content 1 (world_after capture_session)
    = Some (Conversion loan_1 captured_inputs) ∧
  inputs_wf loan_1 captured_inputs ∧
  length (request_lines loan_1 captured_inputs) = length (items loan_1) ∧
  collect_conversion_data captured_inputs loan_1 =
    Some (submission_payload loan_1 (request_lines loan_1 captured_inputs)) ∧
  (hasAnyPositiveQuantity (request_lines loan_1 captured_inputs) = true →
   ∀ r, ∃ w',
     step order_1 (ClickCreateConversionWaybill 1 r) (world_after capture_session)
       = Some w' ∧
     calls w' = calls (world_after capture_session) ++
       [creation_call order_1 loan_1
          (submission_payload loan_1 (request_lines loan_1 captured_inputs))]).
Proof.
  split; [reflexivity|]. split; [exact captured_inputs_wf|].
  apply (payload_is_positive_lines order_1 (world_after capture_session) 1 loan_1
           captured_inputs).
  - reflexivity.
  - exact captured_inputs_wf.
Defined.

(** C5, as the code has it. In a quantity capture that holds the rendered
    lines of its loan, any edit of any line completes without an exception
    and leaves the capture holding the rendered lines, every line with a
    quantity that is not below zero, that is not above the maximum of the
    line when that maximum is not below zero, and that is zero when the
    maximum is negative; an edit above the maximum of its line raises the
    transient orange alert and no blocking message. *)
Theorem quantity_invariant_after_edit (doc : SalesOrder) (w : World)
    (d : nat) (loan : Loan) (inputs : list ConvertInput) (index : nat) (raw : number) :
  visible_content d w = Some (Conversion loan inputs) →
  inputs_wf loan inputs →
  ∃ w' inputs',
    step doc (TypeQuantity d index raw) w = Some w' ∧
    visible_content d w' = Some (Conversion loan inputs') ∧
    inputs_wf loan inputs' ∧
    length (request_lines loan inputs') = length (items loan) ∧
    Forall effective_limits (request_lines loan inputs') ∧
    msgprints w' = msgprints w ∧
    (∀ l, request_lines loan inputs !! index = Some l →
          js_gt raw (maxConvertibleQty l) = true →
          alerts w' = alerts w ++ [over_conversion_alert]).
Proof.
  intros Hd Hwf. simpl. rewrite Hd.
  destruct (inputs !! index) as [inp|] eqn:Hi.
  - pose proof (type_into_wf loan inputs index inp raw Hwf Hi) as Hwf'.
    pose proof (on_input_alerts (set_val inp raw)) as Hal.
    fold (type_into inp raw) in Hal.
    destruct (type_into inp raw) as [inp' shown]. simpl in Hwf', Hal.
    eexists. exists (<[index:=inp']> inputs). split; [reflexivity|].
    split; [|split; [exact Hwf'|split; [exact (request_lines_length _ _ Hwf')|split;
               [exact (request_lines_effective_limits _ _ Hwf')|split; [reflexivity|]]]]].
    + unfold visible_content, set_content. simpl.
      apply visible_content_lookup in Hd.
      rewrite list_lookup_insert_eq by (eapply lookup_lt_Some; eauto). reflexivity.
    + intros l Hl Hgt. simpl. f_equal.
      unfold request_lines in Hl. apply lookup_zip_with_Some in Hl.
      destruct Hl as (it & inp0 & -> & Hit & Hinp0).
      assert (inp0 = inp) as -> by congruence.
      destruct Hwf as [_ Hwf]. destruct (Hwf _ _ Hi) as (_ & it' & Hit' & Hmax & _).
      assert (it' = it) as -> by congruence.
      unfold maxConvertibleQty in Hgt. simpl in Hgt.
      destruct (js_gt_not_nan _ _ Hgt) as [Hraw _].
      rewrite Hal, Hmax, or_zero_idem.
      unfold js_gt, SFltb in *. rewrite SFcompare_or_zero_r by exact Hraw.
      destruct (SFcompare _ raw) as [[]|]; congruence.
  - exists w, inputs. split; [reflexivity|].
    split; [exact Hd|]. split; [exact Hwf|].
    split; [exact (request_lines_length _ _ Hwf)|].
    split; [exact (request_lines_effective_limits _ _ Hwf)|]. split; [reflexivity|].
    intros l Hl _. unfold request_lines in Hl. apply lookup_zip_with_Some in Hl.
    destruct Hl as (it & inp0 & _ & _ & Hinp0). congruence.
Qed.

Lemma quantity_invariant_after_edit_witness :
  visible_content 1 (world_after open_session)
    = Some (Conversion loan_1 (render_conversion_table (items loan_1))) ∧
  inputs_wf loan_1 (render_conversion_table (items loan_1)) ∧
  ∃ w' inputs',
    step order_1 (TypeQuantity 1 0 (of_Z 7)) (world_after open_session) = Some w' ∧
    visible_content 1 w' = Some (Conversion loan_1 inputs') ∧
    inputs_wf loan_1 inputs' ∧
    length (request_lines loan_1 inputs') = length (items loan_1) ∧
    Forall effective_limits (request_lines loan_1 inputs') ∧
    msgprints w' = msgprints (world_after open_session) ∧
    (∀ l, request_lines loan_1 (render_conversion_table (items loan_1)) !! 0%nat = Some l →
          js_gt (of_Z 7) (maxConvertibleQty l) = true →
          alerts w' = alerts (world_after open_session) ++ [over_conversion_alert]).
Proof.
  split; [reflexivity|]. split; [exact (render_conversion_table_wf loan_1)|].
  apply (quantity_invariant_after_edit order_1 (world_after open_session) 1 loan_1
           (render_conversion_table (items loan_1)) 0 (of_Z 7)).
  - reflexivity.
  - exact (render_conversion_table_wf loan_1).
Defined.

Example overdrawn_capture :
  visible_content 1 (world_after overdrawn_session)
  = Some (Conversion loan_2
            [{| data_index := 0; max_attr := of_Z (-5); value := NaN |}]).
Proof. vm_compute. reflexivity. Qed.

(** C5, as stated, fails: on the line of an item whose maximum is -5, typing
    3 leaves the quantity 0, which is not between 0 and -5. *)
Lemma negative_maximum_breaks_invariant :
  ¬ invariant_holds_after_edit order_1 1 0 (of_Z 3) (world_after overdrawn_session).
Proof.
  intros (w' & loan & inputs' & Hstep & Hvis & Hall).
  vm_compute in Hstep. injection Hstep as <-.
  vm_compute in Hvis. injection Hvis as <- <-.
  apply Forall_inv in Hall. destruct Hall as [_ Hhi].
  vm_compute in Hhi. discriminate Hhi.
Qed.

(** ** Every store reached with clean answers is in order *)

Lemma forallb_lookup {A : Type} (f : A → bool) (l : list A) (i : nat) (x : A) :
  forallb f l = true → l !! i = Some x → f x = true.
Proof.
  revert i. induction l as [|y l IH]; intros i H Hi; [discriminate Hi|].
  simpl in H. apply andb_prop in H. destruct H as [Hy Hl].
  destruct i as [|i]; simpl in Hi; [injection Hi as <-; exact Hy|eauto].
Qed.

Lemma complete_loans_clean (entries : list LoanEntry) :
  forallb clean_entry entries = true →
  ∃ loans, complete_loans entries = Some loans ∧ forallb plain_loan loans = true.
Proof.
  induction entries as [|[loan|waybill date] entries IH]; simpl.
  - intros _. exists []. split; reflexivity.
  - intros H. apply andb_prop in H. destruct H as [Hp Hr].
    destruct (IH Hr) as (loans & -> & Hl). exists (loan :: loans).
    split; [reflexivity|]. simpl. rewrite Hp, Hl. reflexivity.
  - discriminate.
Qed.

Lemma world_ok_same (w w' : World) :
  dialogs w' = dialogs w → browser w' = browser w → world_ok w → world_ok w'.
Proof. unfold world_ok. intros -> ->. auto. Qed.

Lemma world_ok_insert (d : nat) (dlg : Dialog) (w : World) :
  world_ok w → content_ok (content dlg) →
  world_ok (with_dialogs (<[d := dlg]> (dialogs w)) w).
Proof.
  intros [Hb Hw] Hdlg. split; [exact Hb|]. intros d' dlg' Hl. simpl in Hl.
  apply list_lookup_insert_Some in Hl.
  destruct Hl as [(_ & <- & _)|(_ & Hl)]; eauto.
Qed.

Lemma world_ok_show_dialog (c : DialogContent) (w : World) :
  world_ok w → content_ok c → world_ok (show_dialog c w).
Proof.
  intros [Hb Hw] Hc. split; [exact Hb|]. intros d dlg Hl. simpl in Hl.
  apply lookup_snoc_Some in Hl.
  destruct Hl as [(_ & Hl)|(_ & <-)]; eauto.
Qed.

Lemma world_ok_hide (d : nat) (w : World) : world_ok w → world_ok (hide d w).
Proof.
  intros Hw. unfold hide. destruct (dialogs w !! d) as [dlg|] eqn:E; [|exact Hw].
  apply world_ok_insert; [exact Hw|]. simpl. destruct Hw as [_ Hw]. eauto.
Qed.

Lemma world_ok_visible (d : nat) (w : World) (c : DialogContent) :
  world_ok w → visible_content d w = Some c → content_ok c.
Proof.
  intros [_ Hw] H. apply visible_content_lookup in H.
  exact (Hw _ _ H).
Qed.

Lemma create_linked_doc_dialogs (doc : SalesOrder) (doctype : string)
    (r : Response string) (w : World) :
  ∃ w', create_linked_doc doc doctype r w = Some w' ∧ dialogs w' = dialogs w ∧
        browser w' = browser w.
Proof.
  unfold create_linked_doc, frappe_call.
  destruct r as [[docname|]|reason]; simpl;
    try destruct (negb (negb (String.eqb docname "")));
    eexists; split; try reflexivity; split; reflexivity.
Qed.

(** Closes a goal [∃ w', Some _ = Some w' ∧ world_ok w'] whose world has the
    dialogs and the browser of [w]. *)
Ltac keeps_dialogs Hw :=
  eexists; split; [reflexivity|];
  eapply world_ok_same; [| |exact Hw]; reflexivity.

Lemma check_pending_loans_ok (doc : SalesOrder) (r : Response PendingLoans)
    (w : World) :
  world_ok w → clean_event (ClickCheckPendingLoans r) = true →
  ∃ w', check_pending_loans doc r w = Some w' ∧ world_ok w'.
Proof.
  intros Hw Hclean. unfold check_pending_loans, frappe_call.
  destruct r as [[data|]|reason]; simpl; try keeps_dialogs Hw.
  simpl in Hclean. unfold clean_answer in Hclean.
  apply andb_prop in Hclean. destruct Hclean as [_ Hclean].
  unfold show_loan_selection_dialog.
  destruct (loan_waybills data) as [entries|]; [|keeps_dialogs Hw].
  destruct (length entries =? 0)%nat; [keeps_dialogs Hw|].
  destruct (complete_loans_clean entries Hclean) as (loans & -> & Hplain).
  eexists. split; [reflexivity|].
  apply world_ok_show_dialog; [|exact Hplain].
  eapply world_ok_same; [| |exact Hw]; reflexivity.
Qed.

Lemma initial_world_ok (b : Browser) : standard b → world_ok (initial_world b).
Proof. intros Hb. split; [exact Hb|]. intros d dlg H. discriminate H. Qed.

Lemma step_ok (doc : SalesOrder) (e : Event) (w : World) :
  plain_order doc = true → world_ok w → clean_event e = true →
  ∃ w', step doc e w = Some w' ∧ world_ok w'.
Proof.
  intros Hdoc Hw Hclean.
  assert (Hsame : ∃ w', Some w = Some w' ∧ world_ok w') by eauto.
  destruct e as [|doctype r|r|d index|d index|d|d index raw|d r|d]; simpl.
  - keeps_dialogs Hw.
  - destruct (has_button _ w); [|exact Hsame].
    destruct (create_linked_doc_dialogs doc doctype r w) as (w' & -> & Hd & Hb).
    eexists. split; [reflexivity|]. eapply world_ok_same; eauto.
  - destruct (has_button _ w); [|exact Hsame].
    apply check_pending_loans_ok; assumption.
  - destruct (visible_content d w) as [[data loans checked| |]|] eqn:Hd;
      try exact Hsame.
    destruct (index <? length loans)%nat; [|exact Hsame].
    eexists. split; [reflexivity|]. apply world_ok_insert; [exact Hw|].
    exact (world_ok_visible d w _ Hw Hd).
  - destruct (visible_content d w) as [[data loans checked| |]|]; try exact Hsame.
    destruct (loans !! index) as [loan|]; [|exact Hsame].
    eexists. split; [reflexivity|]. apply world_ok_show_dialog; [exact Hw|exact I].
  - destruct (visible_content d w) as [[data loans checked| |]|] eqn:Hd;
      try exact Hsame.
    eexists. split; [reflexivity|]. unfold selection_primary_action.
    destruct (get_selected_loan loans checked) as [selected|] eqn:Hsel.
    + apply world_ok_show_dialog; [apply world_ok_hide; exact Hw|].
      assert (Hplain : plain_loan selected = true).
      { destruct checked as [i|]; [|discriminate Hsel]. simpl in Hsel.
        exact (forallb_lookup _ _ _ _ (world_ok_visible d w _ Hw Hd) Hsel). }
      assert (Hb : browser (hide d w) = browser w).
      { unfold hide. destruct (dialogs w !! d); reflexivity. }
      simpl. rewrite Hb. destruct Hw as [[Hin _] _].
      rewrite (Hin _ _ Hdoc Hplain). apply render_conversion_table_wf.
    + eapply world_ok_same; [| |exact Hw]; reflexivity.
  - destruct (visible_content d w) as [[| |loan inputs]|] eqn:Hd; try exact Hsame.
    destruct (inputs !! index) as [inp|] eqn:Hi; [|exact Hsame].
    pose proof (type_into_wf loan inputs index inp raw
                  (world_ok_visible d w _ Hw Hd) Hi) as Hin.
    destruct (type_into inp raw) as [inp' shown]. simpl in Hin.
    eexists. split; [reflexivity|].
    eapply world_ok_same;
      [| |apply (world_ok_insert d
                 {| visible := true; content := Conversion loan (<[index:=inp']> inputs) |}
                 w Hw); exact Hin]; reflexivity.
  - destruct (visible_content d w) as [[| |loan inputs]|] eqn:Hd; try exact Hsame.
    unfold conversion_primary_action.
    rewrite (collect_conversion_data_wf loan inputs (world_ok_visible d w _ Hw Hd)).
    destruct (length _ =? 0)%nat.
    + keeps_dialogs Hw.
    + destruct (create_draft_delivery_note_effects doc loan
                  (submission_payload loan (request_lines loan inputs)) r (hide d w))
        as (w' & -> & Hdl & _ & Hb).
      eexists. split; [reflexivity|].
      eapply world_ok_same; [exact Hdl|exact Hb|]. apply world_ok_hide. exact Hw.
  - destruct (visible_content d w); [|exact Hsame].
    eexists. split; [reflexivity|]. apply world_ok_hide. exact Hw.
Qed.

Lemma run_ok (doc : SalesOrder) (es : list Event) :
  plain_order doc = true →
  ∀ w, world_ok w → forallb clean_event es = true →
       ∃ w', run doc es w = Some w' ∧ world_ok w'.
Proof.
  intros Hdoc. induction es as [|e es IH]; intros w Hw Hclean; simpl.
  - eauto.
  - simpl in Hclean. apply andb_prop in Hclean. destruct Hclean as [He Hes].
    destruct (step_ok doc e w Hdoc Hw He) as (w1 & -> & Hw1). apply IH; assumption.
Qed.

Lemma plain_browser_standard : standard plain_browser.
Proof. split; intros; reflexivity. Qed.

(** ** Further properties of the workflow *)

(** X1. In a browser that finds only the script's own elements in texts
    without markup, on the form of an order whose customer holds no markup,
    and with server answers whose loans all have their items and whose texts
    hold no markup, every sequence of user events runs to completion: no
    handler stops on an uncaught exception. *)
Theorem workflow_never_throws (doc : SalesOrder) (b : Browser) (es : list Event) :
  standard b → plain_order doc = true → forallb clean_event es = true →
  ∃ w, run doc es (initial_world b) = Some w.
Proof.
  intros Hb Hdoc Hclean.
  destruct (run_ok doc es Hdoc (initial_world b) (initial_world_ok b Hb) Hclean)
    as (w & H & _).
  eauto.
Qed.

Lemma workflow_never_throws_witness :
  standard plain_browser ∧ plain_order order_1 = true ∧
  forallb clean_event capture_session = true ∧
  ∃ w, run order_1 capture_session (initial_world plain_browser) = Some w.
Proof.
  split; [exact plain_browser_standard|]. split; [reflexivity|].
  split; [reflexivity|].
  apply (workflow_never_throws order_1 plain_browser capture_session).
  - exact plain_browser_standard.
  - reflexivity.
  - reflexivity.
Defined.

(** X23. Under the same conditions every quantity capture the workflow
    reaches holds the lines the script rendered for its loan: one input per
    loan item, in item order, with the maximum of its item and a quantity
    its handler accepts. *)
Theorem reachable_capture_is_rendered (doc : SalesOrder) (b : Browser)
    (es : list Event) (w : World) (d : nat) (loan : Loan) (inputs : list ConvertInput) :
  standard b → plain_order doc = true → forallb clean_event es = true →
  run doc es (initial_world b) = Some w →
  visible_content d w = Some (Conversion loan inputs) →
  inputs_wf loan inputs.
Proof.
  intros Hb Hdoc Hclean Hrun Hd.
  destruct (run_ok doc es Hdoc (initial_world b) (initial_world_ok b Hb) Hclean)
    as (w' & H & Hw).
  rewrite Hrun in H. injection H as <-.
  exact (world_ok_visible d w _ Hw Hd).
Qed.

Lemma reachable_capture_is_rendered_witness :
  standard plain_browser ∧ plain_order order_1 = true ∧
  forallb clean_event capture_session = true ∧
  run order_1 capture_session (initial_world plain_browser)
    = Some (world_after capture_session) ∧
  visible_content 1 (world_after capture_session)
    = Some (Conversion loan_1 captured_inputs) ∧
  inputs_wf loan_1 captured_inputs.
Proof.
  split; [exact plain_browser_standard|]. split; [reflexivity|].
  split; [reflexivity|].
  split; [vm_compute; reflexivity|]. split; [vm_compute; reflexivity|].
  apply (reachable_capture_is_rendered order_1 plain_browser capture_session
           (world_after capture_session) 1 loan_1 captured_inputs).
  - exact plain_browser_standard.
  - reflexivity.
  - reflexivity.
  - vm_compute. reflexivity.
  - vm_compute. reflexivity.
Defined.

(** X2. [check_pending_loans] sends one call. A successful answer with no
    data, no list or an empty list shows the "No Pending Loans" message; a
    failed call shows nothing. For a successful answer with a non-empty list
    the handler opens a selection dialog holding the loans received when
    every loan has its items, and stops on an exception when a loan has no
    items. No answer makes it navigate. *)
Theorem check_pending_loans_outcomes (doc : SalesOrder) (r : Response PendingLoans)
    (w : World) :
  match r with
  | Success (Some data) =>
      match loan_waybills data with
      | Some (entry :: entries) =>
          match complete_loans (entry :: entries) with
          | Some loans =>
              ∃ w',
                check_pending_loans doc r w = Some w' ∧
                calls w' = calls w ++ [pending_loans_call doc] ∧
                routes w' = routes w ∧ msgprints w' = msgprints w ∧
                dialogs w' = dialogs w ++
                  [{| visible := true;
                      content := LoanSelection data loans
                                   (checked_radio_of (browser w) data) |}]
          | None => check_pending_loans doc r w = None
          end
      | Some [] | None =>
          ∃ w',
            check_pending_loans doc r w = Some w' ∧
            calls w' = calls w ++ [pending_loans_call doc] ∧
            routes w' = routes w ∧ dialogs w' = dialogs w ∧
            msgprints w' = msgprints w ++ [no_pending_loans_msg]
      end
  | Success None =>
      ∃ w',
        check_pending_loans doc r w = Some w' ∧
        calls w' = calls w ++ [pending_loans_call doc] ∧
        routes w' = routes w ∧ dialogs w' = dialogs w ∧
        msgprints w' = msgprints w ++ [no_pending_loans_msg]
  | Failure _ =>
      ∃ w',
        check_pending_loans doc r w = Some w' ∧
        calls w' = calls w ++ [pending_loans_call doc] ∧
        routes w' = routes w ∧ dialogs w' = dialogs w ∧
        msgprints w' = msgprints w
  end.
Proof.
  unfold check_pending_loans, frappe_call.
  destruct r as [[data|]|reason]; simpl;
    try (eexists; repeat split; reflexivity).
  unfold show_loan_selection_dialog.
  destruct (loan_waybills data) as [[|entry entries]|]; simpl;
    try (eexists; repeat split; reflexivity).
  destruct entry as [loan|waybill date]; [|reflexivity].
  destruct (complete_loans entries) as [loans|];
    [eexists; repeat split; reflexivity|reflexivity].
Qed.

Example loan_without_items_throws :
  check_pending_loans order_1
    (Success (Some {| data_customer := Some "ACME Clinic";
                      data_sales_order := "SO-0001";
                      loan_waybills := Some [loan_without_items "LW-0009" "2026-03-01"] |}))
    empty_world = None.
Proof. reflexivity. Qed.

(** X3. The "Create" button of a linked document is on the form exactly when
    the order is submitted and does not have that document yet; neither the
    customer nor the delivered percentage matters, and a document that is
    not submitted gets no button at all. *)
Theorem linked_doc_buttons_offered_iff (doc : SalesOrder) :
  (offers_linked_doc "Customer Delivery Note" doc = true ↔
   docstatus doc = 1%Z ∧ truthy_str (custom_customer_delivery_note doc) = false) ∧
  (offers_linked_doc "Promissory Note" doc = true ↔
   docstatus doc = 1%Z ∧ truthy_str (custom_promissory_note doc) = false) ∧
  (docstatus doc ≠ 1%Z → refresh doc [] = []).
Proof.
  unfold offers_linked_doc, refresh, add_linked_document_buttons.
  destruct (docstatus doc =? 1)%Z eqn:Hs;
    [apply Z.eqb_eq in Hs|apply Z.eqb_neq in Hs];
    destruct (truthy_str (custom_customer_delivery_note doc)),
             (truthy_str (custom_promissory_note doc)),
             (truthy_str (customer doc)),
             (js_ge (per_delivered doc) (of_Z 100));
    cbn; repeat split; intros; try tauto; try discriminate;
    repeat match goal with H : _ ∧ _ |- _ => destruct H end;
    try discriminate; try contradiction.
Qed.

(** X4. [create_linked_doc] sends exactly one call, to the Customer Delivery
    Note method for that doctype and to the Promissory Note method for any
    other, and navigates to the new document only when the call succeeds
    with a non-empty name; it shows no message and touches no dialog. *)
Theorem create_linked_doc_outcomes (doc : SalesOrder) (doctype : string)
    (r : Response string) (w : World) :
  ∃ w',
    create_linked_doc doc doctype r w = Some w' ∧
    calls w' = calls w ++
      [{| method := linked_doc_method doctype; args := SalesOrderArgs (name doc) |}] ∧
    dialogs w' = dialogs w ∧
    msgprints w' = msgprints w ∧
    routes w' =
      match r with
      | Success (Some docname) =>
          if String.eqb docname "" then routes w
          else routes w ++ [{| route_view := "Form"; route_doctype := doctype;
                               route_name := docname |}]
      | Success None | Failure _ => routes w
      end.
Proof.
  unfold create_linked_doc, frappe_call, linked_doc_method.
  destruct r as [[docname|]|reason]; simpl;
    try destruct (String.eqb docname ""); simpl;
    eexists; repeat split; reflexivity.
Qed.

Lemma show_dialog_lookup (c : DialogContent) (w : World) :
  visible_content (length (dialogs w)) (show_dialog c w) = Some c ∧
  length (dialogs (show_dialog c w)) = S (length (dialogs w)) ∧
  ∀ d dlg, dialogs w !! d = Some dlg → dialogs (show_dialog c w) !! d = Some dlg.
Proof.
  unfold visible_content, show_dialog. simpl. split; [|split].
  - rewrite lookup_app_r by reflexivity. rewrite Nat.sub_diag. reflexivity.
  - rewrite length_app. simpl. apply Nat.add_1_r.
  - intros d dlg H. apply lookup_app_l_Some. exact H.
Qed.




(** X6. Clicking the row of a loan opens a read-only detail dialog for that
    loan and the customer of the list; the list dialog stays visible and the
    click selects nothing, so the checked radio button is as it was. *)
Theorem row_click_shows_details (doc : SalesOrder) (d : nat) (w : World)
    (data : PendingLoans) (loans : list Loan) (checked : option nat)
    (index : nat) (loan : Loan) :
  visible_content d w = Some (LoanSelection data loans checked) →
  loans !! index = Some loan →
  ∃ w',
    step doc (ClickLoanRow d index) w = Some w' ∧
    dialogs w' = dialogs w ++
      [{| visible := true; content := LoanDetail loan (data_customer data) |}] ∧
    visible_content d w' = Some (LoanSelection data loans checked) ∧
    calls w' = calls w ∧ msgprints w' = msgprints w ∧ routes w' = routes w.
Proof.
  intros Hd Hl. simpl. rewrite Hd, Hl. eexists. split; [reflexivity|].
  split; [reflexivity|]. split; [|repeat split; reflexivity].
  apply visible_content_lookup. apply visible_content_lookup in Hd.
  apply (show_dialog_lookup (LoanDetail loan (data_customer data)) w). exact Hd.
Qed.

Lemma row_click_shows_details_witness :
  visible_content 0 (world_after list_session)
    = Some (LoanSelection pending_1 [loan_1] None) ∧
  [loan_1] !! 0%nat = Some loan_1 ∧
  ∃ w',
    step order_1 (ClickLoanRow 0 0) (world_after list_session) = Some w' ∧
    dialogs w' = dialogs (world_after list_session) ++
      [{| visible := true; content := LoanDetail loan_1 (data_customer pending_1) |}] ∧
    visible_content 0 w' = Some (LoanSelection pending_1 [loan_1] None) ∧
    calls w' = calls (world_after list_session) ∧
    msgprints w' = msgprints (world_after list_session) ∧
    routes w' = routes (world_after list_session).
Proof.
  split; [reflexivity|]. split; [reflexivity|].
  apply (row_click_shows_details order_1 0 (world_after list_session)
           pending_1 [loan_1] None 0 loan_1); reflexivity.
Defined.

(** ** Hidden dialogs *)

Lemma keeps_hidden_refl (w w' : World) : dialogs w' = dialogs w → keeps_hidden w w'.
Proof. intros H. unfold keeps_hidden. rewrite H. auto. Qed.

Lemma keeps_hidden_trans (w1 w2 w3 : World) :
  keeps_hidden w1 w2 → keeps_hidden w2 w3 → keeps_hidden w1 w3.
Proof.
  intros [L1 H1] [L2 H2]. split; [lia|]. intros d dlg Hd Hv. eauto.
Qed.

Lemma keeps_hidden_show_dialog (c : DialogContent) (w : World) :
  keeps_hidden w (show_dialog c w).
Proof.
  destruct (show_dialog_lookup c w) as (_ & Hlen & Hold). split; [lia|].
  intros d dlg Hd _. auto.
Qed.

Lemma keeps_hidden_hide (d : nat) (w : World) : keeps_hidden w (hide d w).
Proof.
  unfold hide. destruct (dialogs w !! d) as [dlg0|] eqn:E;
    [|apply keeps_hidden_refl; reflexivity].
  split; simpl; [rewrite length_insert; lia|].
  intros d' dlg Hd Hv. destruct (decide (d = d')) as [<-|Hne].
  - rewrite list_lookup_insert_eq by (eapply lookup_lt_Some; eauto).
    rewrite E in Hd. injection Hd as ->. destruct dlg. simpl in *. congruence.
  - rewrite list_lookup_insert_ne by exact Hne. exact Hd.
Qed.

Lemma keeps_hidden_set_content (d : nat) (c c' : DialogContent) (w : World) :
  visible_content d w = Some c → keeps_hidden w (set_content d c' w).
Proof.
  intros Hc. apply visible_content_lookup in Hc. split; simpl.
  - rewrite length_insert. lia.
  - intros d' dlg Hd Hv. destruct (decide (d = d')) as [<-|Hne].
    + rewrite Hc in Hd. injection Hd as <-. discriminate Hv.
    + rewrite list_lookup_insert_ne by exact Hne. exact Hd.
Qed.

Lemma check_pending_loans_keeps_hidden (doc : SalesOrder) (r : Response PendingLoans)
    (w w' : World) :
  check_pending_loans doc r w = Some w' → keeps_hidden w w'.
Proof.
  unfold check_pending_loans, frappe_call.
  destruct r as [[data|]|reason]; simpl;
    try (intros [= <-]; apply keeps_hidden_refl; reflexivity).
  unfold show_loan_selection_dialog.
  destruct (loan_waybills data) as [lws|];
    [destruct (length lws =? 0)%nat|];
    try (intros [= <-]; apply keeps_hidden_refl; reflexivity).
  destruct (complete_loans lws) as [loans|]; [|discriminate].
  intros [= <-].
  apply (keeps_hidden_show_dialog
           (LoanSelection data loans (checked_radio_of (browser w) data))
           (send (pending_loans_call doc) w)).
Qed.

Lemma step_keeps_hidden (doc : SalesOrder) (e : Event) (w w' : World) :
  step doc e w = Some w' → keeps_hidden w w'.
Proof.
  assert (Hsame : Some w = Some w' → keeps_hidden w w').
  { intros [= <-]. apply keeps_hidden_refl. reflexivity. }
  destruct e as [|doctype r|r|d index|d index|d|d index raw|d r|d]; simpl.
  - intros [= <-]. apply keeps_hidden_refl. reflexivity.
  - destruct (has_button _ w); [|exact Hsame].
    destruct (create_linked_doc_dialogs doc doctype r w) as (w1 & -> & Hd & _).
    intros [= <-]. apply keeps_hidden_refl. exact Hd.
  - destruct (has_button _ w); [|exact Hsame].
    apply check_pending_loans_keeps_hidden.
  - destruct (visible_content d w) as [[data loans checked| |]|] eqn:Hd;
      try exact Hsame.
    destruct (index <? length loans)%nat; [|exact Hsame].
    intros [= <-]. eapply keeps_hidden_set_content. exact Hd.
  - destruct (visible_content d w) as [[data loans checked| |]|]; try exact Hsame.
    destruct (loans !! index) as [loan|]; [|exact Hsame].
    intros [= <-]. apply keeps_hidden_show_dialog.
  - destruct (visible_content d w) as [[data loans checked| |]|]; try exact Hsame.
    intros [= <-]. unfold selection_primary_action.
    destruct (get_selected_loan loans checked) as [selected|].
    + eapply keeps_hidden_trans; [apply keeps_hidden_hide|].
      apply keeps_hidden_show_dialog.
    + apply keeps_hidden_refl. reflexivity.
  - destruct (visible_content d w) as [[| |loan inputs]|] eqn:Hd; try exact Hsame.
    destruct (inputs !! index) as [inp|]; [|exact Hsame].
    destruct (type_into inp raw) as [inp' shown]. intros [= <-].
    eapply keeps_hidden_trans;
      [eapply keeps_hidden_set_content; exact Hd|].
    apply keeps_hidden_refl. reflexivity.
  - destruct (visible_content d w) as [[| |loan inputs]|]; try exact Hsame.
    unfold conversion_primary_action.
    destruct (collect_conversion_data inputs loan) as [payload|]; [|discriminate].
    destruct (length payload =? 0)%nat.
    + intros [= <-]. apply keeps_hidden_refl. reflexivity.
    + destruct (create_draft_delivery_note_effects doc loan payload r (hide d w))
        as (w1 & -> & Hdl & _).
      intros [= <-]. eapply keeps_hidden_trans; [apply keeps_hidden_hide|].
      apply keeps_hidden_refl. exact Hdl.
  - destruct (visible_content d w); [|exact Hsame].
    intros [= <-]. apply keeps_hidden_hide.
Qed.

Lemma run_keeps_hidden (doc : SalesOrder) (es : list Event) :
  ∀ w w', run doc es w = Some w' → keeps_hidden w w'.
Proof.
  induction es as [|e es IH]; intros w w'; simpl.
  - intros [= <-]. apply keeps_hidden_refl. reflexivity.
  - destruct (step doc e w) as [w1|] eqn:E; [|discriminate].
    intros H. eapply keeps_hidden_trans; [exact (step_keeps_hidden _ _ _ _ E)|].
    apply IH. exact H.
Qed.

(** X7. The script never shows a dialog again once it is hidden and never
    removes a dialog: after any further events a dialog that was hidden is
    still there, hidden, with the content (loan, entered quantities) it had. *)
Theorem hidden_dialog_never_reopens (doc : SalesOrder) (es : list Event)
    (w w' : World) (d : nat) (dlg : Dialog) :
  dialogs w !! d = Some dlg → visible dlg = false →
  run doc es w = Some w' →
  dialogs w' !! d = Some dlg ∧ visible_content d w' = None ∧
  (length (dialogs w) ≤ length (dialogs w'))%nat.
Proof.
  intros Hd Hv Hrun. destruct (run_keeps_hidden doc es w w' Hrun) as [Hlen Hk].
  pose proof (Hk d dlg Hd Hv) as Hd'.
  split; [exact Hd'|]. split; [|exact Hlen].
  unfold visible_content. rewrite Hd', Hv. reflexivity.
Qed.

Lemma hidden_dialog_never_reopens_witness :
  dialogs (world_after capture_session) !! 0%nat = Some hidden_list_dialog ∧
  visible hidden_list_dialog = false ∧
  run order_1 later_events (world_after capture_session)
    = Some (continue later_events (world_after capture_session)) ∧
  dialogs (continue later_events (world_after capture_session)) !! 0%nat
    = Some hidden_list_dialog ∧
  visible_content 0 (continue later_events (world_after capture_session)) = None ∧
  (length (dialogs (world_after capture_session))
   ≤ length (dialogs (continue later_events (world_after capture_session))))%nat.
Proof.
  split; [vm_compute; reflexivity|]. split; [vm_compute; reflexivity|]. split; [vm_compute; reflexivity|].
  apply (hidden_dialog_never_reopens order_1 later_events
           (world_after capture_session)
           (continue later_events (world_after capture_session))
           0 hidden_list_dialog); vm_compute; reflexivity.
Defined.

(** ** Remote calls *)

Lemma hide_calls (d : nat) (w : World) :
  calls (hide d w) = calls w ∧ msgprints (hide d w) = msgprints w ∧
  routes (hide d w) = routes w ∧ alerts (hide d w) = alerts w.
Proof. unfold hide. destruct (dialogs w !! d); repeat split; reflexivity. Qed.

Lemma step_calls (doc : SalesOrder) (e : Event) (w w' : World) :
  step doc e w = Some w' →
  ∃ cs, calls w' = calls w ++ cs ∧
        (length cs ≤ if may_call e then 1 else 0)%nat.
Proof.
  assert (Hnone : ∀ v : World, calls v = calls w →
            ∃ cs, calls v = calls w ++ cs ∧ (length cs ≤ 0)%nat).
  { intros v Hv. exists []. rewrite app_nil_r. split; [exact Hv|reflexivity]. }
  assert (Hmay : ∀ v : World, calls v = calls w →
            ∃ cs, calls v = calls w ++ cs ∧ (length cs ≤ 1)%nat).
  { intros v Hv. exists []. rewrite app_nil_r. split; [exact Hv|simpl; lia]. }
  assert (Hone : ∀ (v : World) c, calls v = calls w ++ [c] →
            ∃ cs, calls v = calls w ++ cs ∧ (length cs ≤ 1)%nat).
  { intros v c Hv. exists [c]. split; [exact Hv|reflexivity]. }
  destruct e as [|doctype r|r|d index|d index|d|d index raw|d r|d]; simpl.
  - intros [= <-]. apply Hnone. reflexivity.
  - destruct (has_button _ w); [|intros [= <-]; apply Hmay; reflexivity].
    unfold create_linked_doc, frappe_call.
    destruct r as [[docname|]|reason]; simpl;
      try destruct (String.eqb docname ""); simpl;
      intros [= <-]; eapply Hone; reflexivity.
  - destruct (has_button _ w); [|intros [= <-]; apply Hmay; reflexivity].
    unfold check_pending_loans, frappe_call.
    destruct r as [[data|]|reason]; simpl;
      try (intros [= <-]; eapply Hone; reflexivity).
    unfold show_loan_selection_dialog.
    destruct (loan_waybills data) as [lws|];
      [destruct (length lws =? 0)%nat|];
      try (intros [= <-]; eapply Hone; reflexivity).
    destruct (complete_loans lws) as [loans|]; [|discriminate].
    intros [= <-]; eapply Hone; reflexivity.
  - destruct (visible_content d w) as [[data loans checked| |]|];
      try (intros [= <-]; apply Hnone; reflexivity).
    destruct (index <? length loans)%nat; intros [= <-]; apply Hnone; reflexivity.
  - destruct (visible_content d w) as [[data loans checked| |]|];
      try (intros [= <-]; apply Hnone; reflexivity).
    destruct (loans !! index); intros [= <-]; apply Hnone; reflexivity.
  - destruct (visible_content d w) as [[data loans checked| |]|];
      try (intros [= <-]; apply Hnone; reflexivity).
    intros [= <-]. apply Hnone. unfold selection_primary_action.
    destruct (get_selected_loan loans checked); simpl; [|reflexivity].
    apply hide_calls.
  - destruct (visible_content d w) as [[| |loan inputs]|];
      try (intros [= <-]; apply Hnone; reflexivity).
    destruct (inputs !! index) as [inp|]; [|intros [= <-]; apply Hnone; reflexivity].
    destruct (type_into inp raw). intros [= <-]. apply Hnone. reflexivity.
  - destruct (visible_content d w) as [[| |loan inputs]|];
      try (intros [= <-]; apply Hmay; reflexivity).
    unfold conversion_primary_action.
    destruct (collect_conversion_data inputs loan) as [payload|]; [|discriminate].
    destruct (length payload =? 0)%nat.
    + intros [= <-]. apply Hmay. reflexivity.
    + destruct (create_draft_delivery_note_effects doc loan payload r (hide d w))
        as (w1 & -> & _ & Hc & _).
      intros [= <-]. eapply Hone. rewrite Hc.
      destruct (hide_calls d w) as [-> _]. reflexivity.
  - destruct (visible_content d w); intros [= <-]; apply Hnone;
      [apply hide_calls|reflexivity].
Qed.

(** X8. The log of remote calls only grows, by at most one call for each
    click on a button that calls the server, and by nothing for any other
    event: typing, selecting, opening details, "Convert Selected" and closing
    never contact the server, and no call is ever repeated on its own. *)
Theorem at_most_one_call_per_click (doc : SalesOrder) (es : list Event) (w w' : World) :
  run doc es w = Some w' →
  ∃ cs, calls w' = calls w ++ cs ∧
        (length cs ≤ length (List.filter may_call es))%nat.
Proof.
  revert w. induction es as [|e es IH]; intros w; simpl.
  - intros [= <-]. exists []. rewrite app_nil_r. split; [reflexivity|simpl; lia].
  - destruct (step doc e w) as [w1|] eqn:E; [|discriminate].
    intros Hrun. destruct (step_calls doc e w w1 E) as (cs1 & H1 & L1).
    destruct (IH w1 Hrun) as (cs2 & H2 & L2).
    exists (cs1 ++ cs2). rewrite H2, H1, app_assoc. split; [reflexivity|].
    rewrite length_app. destruct (may_call e); simpl; lia.
Qed.

Lemma at_most_one_call_per_click_witness :
  run order_1 capture_session empty_world = Some (world_after capture_session) ∧
  ∃ cs, calls (world_after capture_session) = calls empty_world ++ cs ∧
        (length cs ≤ length (List.filter may_call capture_session))%nat.
Proof.
  split; [reflexivity|].
  apply (at_most_one_call_per_click order_1 capture_session empty_world
           (world_after capture_session)).
  reflexivity.
Defined.

(** X9. Typing into one line of a quantity capture changes only that line:
    every other line of the dialog and every other dialog is as it was, the
    dialog keeps its loan and its number of lines, and nothing is sent,
    navigated to or shown as a blocking message. *)
Theorem edit_touches_one_line (doc : SalesOrder) (d : nat) (w : World) (loan : Loan)
    (inputs : list ConvertInput) (index : nat) (raw : number) :
  visible_content d w = Some (Conversion loan inputs) →
  ∃ w' inputs',
    step doc (TypeQuantity d index raw) w = Some w' ∧
    visible_content d w' = Some (Conversion loan inputs') ∧
    length inputs' = length inputs ∧
    (∀ j, j ≠ index → inputs' !! j = inputs !! j) ∧
    (∀ d', d' ≠ d → dialogs w' !! d' = dialogs w !! d') ∧
    calls w' = calls w ∧ routes w' = routes w ∧ msgprints w' = msgprints w ∧
    buttons w' = buttons w.
Proof.
  intros Hd. simpl. rewrite Hd.
  destruct (inputs !! index) as [inp|] eqn:Hi.
  - destruct (type_into inp raw) as [inp' shown].
    eexists. exists (<[index:=inp']> inputs). split; [reflexivity|].
    split; [|split; [apply length_insert|split; [|split]]].
    + unfold visible_content, set_content. simpl.
      apply visible_content_lookup in Hd.
      rewrite list_lookup_insert_eq by (eapply lookup_lt_Some; eauto). reflexivity.
    + intros j Hj. apply list_lookup_insert_ne. congruence.
    + intros d' Hd'. simpl. apply list_lookup_insert_ne. congruence.
    + repeat split; reflexivity.
  - exists w, inputs. split; [reflexivity|]. split; [exact Hd|].
    repeat split; reflexivity.
Qed.

Lemma edit_touches_one_line_witness :
  visible_content 1 (world_after capture_session)
    = Some (Conversion loan_1 captured_inputs) ∧
  ∃ w' inputs',
    step order_1 (TypeQuantity 1 1 (of_Z 2)) (world_after capture_session) = Some w' ∧
    visible_content 1 w' = Some (Conversion loan_1 inputs') ∧
    length inputs' = length captured_inputs ∧
    (∀ j, j ≠ 1%nat → inputs' !! j = captured_inputs !! j) ∧
    (∀ d', d' ≠ 1%nat →
       dialogs w' !! d' = dialogs (world_after capture_session) !! d') ∧
    calls w' = calls (world_after capture_session) ∧
    routes w' = routes (world_after capture_session) ∧
    msgprints w' = msgprints (world_after capture_session) ∧
    buttons w' = buttons (world_after capture_session).
Proof.
  split; [reflexivity|].
  apply (edit_touches_one_line order_1 1 (world_after capture_session) loan_1
           captured_inputs 1 (of_Z 2)).
  reflexivity.
Defined.

(** X16. When the creation call succeeds but the answer carries no document
    name (absent or empty), the script does nothing further: no navigation,
    no message, and the conversion dialog, hidden before the call, stays
    hidden. *)
Theorem creation_success_without_name_is_silent (doc : SalesOrder) (d : nat)
    (w : World) (loan : Loan) (inputs : list ConvertInput)
    (payload : list PayloadItem) (message : option string) :
  visible_content d w = Some (Conversion loan inputs) →
  collect_conversion_data inputs loan = Some payload →
  payload ≠ [] →
  truthy_str message = false →
  ∃ w',
    step doc (ClickCreateConversionWaybill d (Success message)) w = Some w' ∧
    routes w' = routes w ∧
    msgprints w' = msgprints w ∧
    alerts w' = alerts w ∧
    visible_content d w' = None ∧
    calls w' = calls w ++ [creation_call doc loan payload].
Proof.
  intros Hd Hc Hne Hm.
  rewrite (submit_sends doc d w loan inputs payload _ Hd Hc Hne).
  destruct (hide_visible d w _ Hd) as [Hh Hv].
  unfold create_draft_delivery_note, frappe_call.
  destruct message as [docname|]; simpl in *.
  - rewrite Hm. simpl. eexists. split; [reflexivity|]. simpl.
    rewrite Hh. simpl. repeat split; auto.
    unfold visible_content in *. simpl. rewrite Hh in Hv. exact Hv.
  - eexists. split; [reflexivity|]. simpl.
    rewrite Hh. simpl. repeat split; auto.
    unfold visible_content in *. simpl. rewrite Hh in Hv. exact Hv.
Qed.

Lemma creation_success_without_name_is_silent_witness :
  visible_content 1 (world_after capture_session)
    = Some (Conversion loan_1 captured_inputs) ∧
  collect_conversion_data captured_inputs loan_1 = Some captured_payload ∧
  captured_payload ≠ [] ∧
  truthy_str (Some "") = false ∧
  ∃ w',
    step order_1 (ClickCreateConversionWaybill 1 (Success (Some "")))
      (world_after capture_session) = Some w' ∧
    routes w' = routes (world_after capture_session) ∧
    msgprints w' = msgprints (world_after capture_session) ∧
    alerts w' = alerts (world_after capture_session) ∧
    visible_content 1 w' = None ∧
    calls w' = calls (world_after capture_session) ++
               [creation_call order_1 loan_1 captured_payload].
Proof.
  split; [reflexivity|]. split; [reflexivity|]. split; [discriminate|].
  split; [reflexivity|].
  apply (creation_success_without_name_is_silent order_1 1
           (world_after capture_session) loan_1 captured_inputs captured_payload
           (Some "")).
  - reflexivity.
  - reflexivity.
  - discriminate.
  - reflexivity.
Defined.

(** X17. A quantity capture submits at most once: after its creation call
    was sent, whatever the answer and whatever the user does next, clicking
    "Create Conversion Waybill" of that dialog again, or typing into it,
    changes nothing and sends nothing. *)
Theorem no_second_submission (doc : SalesOrder) (d : nat) (w w1 w2 : World)
    (loan : Loan) (inputs : list ConvertInput) (payload : list PayloadItem)
    (r r' : Response string) (es : list Event) :
  visible_content d w = Some (Conversion loan inputs) →
  collect_conversion_data inputs loan = Some payload →
  payload ≠ [] →
  step doc (ClickCreateConversionWaybill d r) w = Some w1 →
  run doc es w1 = Some w2 →
  step doc (ClickCreateConversionWaybill d r') w2 = Some w2 ∧
  (∀ index raw, step doc (TypeQuantity d index raw) w2 = Some w2) ∧
  dialogs w2 !! d = Some {| visible := false; content := Conversion loan inputs |}.
Proof.
  intros Hd Hc Hne Hstep Hrun.
  rewrite (submit_sends doc d w loan inputs payload _ Hd Hc Hne) in Hstep.
  destruct (create_draft_delivery_note_effects doc loan payload r (hide d w))
    as (w1' & Hw1 & Hdl & _).
  rewrite Hw1 in Hstep. injection Hstep as ->.
  destruct (hide_visible d w _ Hd) as [Hh _].
  assert (H1 : dialogs w1 !! d =
               Some {| visible := false; content := Conversion loan inputs |}).
  { rewrite Hdl, Hh. simpl. apply visible_content_lookup in Hd.
    apply list_lookup_insert_eq. eapply lookup_lt_Some; eauto. }
  destruct (run_keeps_hidden doc es w1 w2 Hrun) as [_ Hk].
  pose proof (Hk d _ H1 eq_refl) as H2.
  assert (Hv : visible_content d w2 = None).
  { unfold visible_content. rewrite H2. reflexivity. }
  split; [|split; [|exact H2]].
  - simpl. rewrite Hv. reflexivity.
  - intros index raw. simpl. rewrite Hv. reflexivity.
Qed.

Lemma no_second_submission_witness :
  visible_content 1 (world_after capture_session)
    = Some (Conversion loan_1 captured_inputs) ∧
  collect_conversion_data captured_inputs loan_1 = Some captured_payload ∧
  captured_payload ≠ [] ∧
  step order_1 (ClickCreateConversionWaybill 1 (Failure "insufficient stock"))
    (world_after capture_session) = Some failed_world ∧
  run order_1 later_events failed_world = Some (continue later_events failed_world) ∧
  step order_1 (ClickCreateConversionWaybill 1 (Success (Some "DN-0003")))
    (continue later_events failed_world) = Some (continue later_events failed_world) ∧
  (∀ index raw, step order_1 (TypeQuantity 1 index raw)
                  (continue later_events failed_world)
                = Some (continue later_events failed_world)) ∧
  dialogs (continue later_events failed_world) !! 1%nat =
    Some {| visible := false; content := Conversion loan_1 captured_inputs |}.
Proof.
  split; [vm_compute; reflexivity|]. split; [vm_compute; reflexivity|].
  split; [discriminate|]. split; [vm_compute; reflexivity|]. split; [vm_compute; reflexivity|].
  apply (no_second_submission order_1 1 (world_after capture_session) failed_world
           (continue later_events failed_world) loan_1 captured_inputs
           captured_payload (Failure "insufficient stock")
           (Success (Some "DN-0003")) later_events).
  - vm_compute; reflexivity.
  - vm_compute; reflexivity.
  - discriminate.
  - vm_compute; reflexivity.
  - vm_compute; vm_compute; reflexivity.
Defined.

(** ** More on the [input] handler *)

Lemma js_gt_or_zero (a b : number) :
  is_nan a = false → is_nan b = false →
  js_gt (or_zero a) (or_zero b) = js_gt a b.
Proof.
  intros Ha Hb. unfold js_gt, SFltb.
  rewrite SFcompare_or_zero_r by exact Ha.
  rewrite SFcompare_or_zero_l by exact Hb. reflexivity.
Qed.

Lemma js_lt_or_zero_l (a b : number) :
  is_nan a = false → js_lt (or_zero a) b = js_lt a b.
Proof.
  intros Ha. unfold js_lt, SFltb. rewrite SFcompare_or_zero_l by exact Ha. reflexivity.
Qed.

(** X10. A number typed within the limits, [0 <= x <= max], is left exactly
    as typed: the handler writes nothing into the field and raises no alert,
    and the requested quantity is [x]. *)
Theorem in_range_input_is_kept (inp : ConvertInput) (x : number) :
  js_le zero x = true → js_le x (max_attr inp) = true →
  type_into inp x = (set_val inp x, []) ∧
  SFeqb (requested_qty (fst (type_into inp x))) x = true.
Proof.
  intros H0 Hm.
  destruct (js_le_not_nan _ _ Hm) as [Hx Hmax].
  assert (Hgt : js_gt (or_zero x) (or_zero (max_attr inp)) = false).
  { rewrite js_gt_or_zero by assumption. apply js_le_not_gt. exact Hm. }
  assert (Hlt : js_lt (or_zero x) zero = false).
  { rewrite js_lt_or_zero_l by assumption. exact (js_le_not_gt _ _ H0). }
  assert (Ht : type_into inp x = (set_val inp x, [])).
  { unfold type_into, on_input. simpl. rewrite Hgt, Hlt. reflexivity. }
  split; [exact Ht|]. rewrite Ht. unfold requested_qty, SFeqb. simpl.
  rewrite SFcompare_or_zero_l, SFcompare_refl by exact Hx.
  destruct x; try reflexivity. discriminate.
Qed.

Lemma in_range_input_is_kept_witness :
  js_le zero (of_Z 3) = true ∧ js_le (of_Z 3) (of_Z 4) = true ∧
  type_into {| data_index := 1; max_attr := of_Z 4; value := NaN |} (of_Z 3)
    = ({| data_index := 1; max_attr := of_Z 4; value := of_Z 3 |}, []) ∧
  SFeqb (requested_qty
           (fst (type_into {| data_index := 1; max_attr := of_Z 4; value := NaN |}
                   (of_Z 3)))) (of_Z 3) = true.
Proof.
  split; [reflexivity|]. split; [reflexivity|].
  apply (in_range_input_is_kept
           {| data_index := 1; max_attr := of_Z 4; value := NaN |} (of_Z 3));
    reflexivity.
Defined.

(** X11. For a maximum that is not below zero the orange alert is raised
    exactly when the typed number is greater than the maximum; an empty or
    non-numeric text and a negative number are corrected without an alert. *)
Theorem alert_iff_above_maximum (inp : ConvertInput) (raw : number) :
  js_le zero (max_attr inp) = true →
  snd (type_into inp raw) =
  if js_gt raw (max_attr inp) then [over_conversion_alert] else [].
Proof.
  intros Hmax. destruct (js_le_not_nan _ _ Hmax) as [_ Hm].
  unfold type_into. rewrite on_input_alerts. simpl.
  destruct (is_nan raw) eqn:Hr.
  - destruct raw; try discriminate. change (or_zero S754_nan) with zero.
    assert (H0 : js_le zero (or_zero (max_attr inp)) = true).
    { unfold js_le, SFleb in *. rewrite SFcompare_or_zero_r; auto. }
    rewrite (js_le_not_gt _ _ H0).
    unfold js_gt, SFltb. destruct (max_attr inp); reflexivity.
  - rewrite js_gt_or_zero by assumption. reflexivity.
Qed.

Lemma alert_iff_above_maximum_witness :
  js_le zero (of_Z 4) = true ∧
  snd (type_into {| data_index := 1; max_attr := of_Z 4; value := NaN |} (of_Z (-3)))
  = if js_gt (of_Z (-3)) (of_Z 4) then [over_conversion_alert] else [].
Proof.
  split; [reflexivity|].
  apply (alert_iff_above_maximum
           {| data_index := 1; max_attr := of_Z 4; value := NaN |} (of_Z (-3))).
  reflexivity.
Defined.

Lemma nonnegative_above_negative (m v : number) :
  js_lt m zero = true → js_lt v zero = false →
  js_gt (or_zero v) (or_zero m) = true.
Proof.
  destruct m as [sm|sm| |sm mm em]; try discriminate;
    destruct sm; try discriminate; intros _;
    destruct v as [sv|sv| |sv mv ev]; try destruct sv;
    simpl; intros; try reflexivity; discriminate.
Qed.

(** X12. On a line whose maximum is negative no quantity can be entered:
    whatever is typed, the field is reset to 0, and every input that is not
    itself negative, an empty field included, raises the alert. *)
Theorem negative_maximum_forces_zero (inp : ConvertInput) (raw : number) :
  js_lt (max_attr inp) zero = true →
  value (fst (type_into inp raw)) = zero ∧
  requested_qty (fst (type_into inp raw)) = zero ∧
  (js_lt raw zero = false → snd (type_into inp raw) = [over_conversion_alert]).
Proof.
  intros Hneg.
  assert (Hm : or_zero (max_attr inp) = max_attr inp).
  { destruct (max_attr inp) as [s|s| |s m e]; try discriminate; reflexivity. }
  assert (Hv : value (fst (type_into inp raw)) = zero).
  { unfold type_into. rewrite on_input_cases. simpl. rewrite Hm, Hneg.
    destruct (js_gt (or_zero raw) (max_attr inp)) eqn:Hgt; [reflexivity|].
    rewrite (below_negative _ _ Hneg (or_zero_not_nan raw) Hgt). reflexivity. }
  split; [exact Hv|]. split.
  - unfold requested_qty. rewrite Hv. reflexivity.
  - intros Hraw. unfold type_into. rewrite on_input_alerts. simpl.
    rewrite (nonnegative_above_negative _ _ Hneg Hraw). reflexivity.
Qed.

Lemma negative_maximum_forces_zero_witness :
  js_lt (of_Z (-5)) zero = true ∧
  value (fst (type_into {| data_index := 0; max_attr := of_Z (-5); value := NaN |}
                (of_Z 3))) = zero ∧
  requested_qty (fst (type_into {| data_index := 0; max_attr := of_Z (-5); value := NaN |}
                        (of_Z 3))) = zero ∧
  (js_lt (of_Z 3) zero = false →
   snd (type_into {| data_index := 0; max_attr := of_Z (-5); value := NaN |} (of_Z 3))
   = [over_conversion_alert]).
Proof.
  split; [reflexivity|].
  apply (negative_maximum_forces_zero
           {| data_index := 0; max_attr := of_Z (-5); value := NaN |} (of_Z 3)).
  reflexivity.
Defined.

(** ** Order properties of the comparison *)

Lemma js_le_trans (a b c : number) :
  js_le a b = true → js_le b c = true → js_le a c = true.
Proof.
  unfold js_le, SFleb.
  destruct a as [sa|sa| |sa ma ea], b as [sb|sb| |sb mb eb], c as [sc|sc| |sc mc ec];
    simpl; try discriminate; try reflexivity;
    repeat match goal with s : bool |- _ => destruct s end;
    simpl; try discriminate; try reflexivity; try (intros; reflexivity);
    change (Pos.compare_cont Eq ma mb) with (Pos.compare ma mb);
    change (Pos.compare_cont Eq mb mc) with (Pos.compare mb mc);
    change (Pos.compare_cont Eq ma mc) with (Pos.compare ma mc);
    destruct (Z.compare_spec ea eb), (Z.compare_spec eb ec), (Z.compare_spec ea ec);
    try lia; try discriminate; try (intros; reflexivity);
    destruct (Pos.compare_spec ma mb), (Pos.compare_spec mb mc),
             (Pos.compare_spec ma mc);
    simpl; try lia; try discriminate; intros; reflexivity.
Qed.

Lemma js_le_total (a b : number) :
  is_nan a = false → is_nan b = false → js_le a b = false → js_le b a = true.
Proof.
  intros Ha Hb. unfold js_le, SFleb. rewrite (SFcompare_swap a b).
  destruct (SFcompare a b) as [[]|] eqn:E; simpl; try congruence.
  apply SFcompare_None in E. destruct E; congruence.
Qed.

Lemma js_gt_negb_le (a b : number) :
  is_nan a = false → is_nan b = false → js_gt a b = negb (js_le a b).
Proof.
  intros Ha Hb. unfold js_gt, js_le, SFltb, SFleb. rewrite (SFcompare_swap a b).
  destruct (SFcompare a b) as [[]|] eqn:E; simpl; try reflexivity.
  apply SFcompare_None in E. destruct E; congruence.
Qed.

Lemma clampQuantity_cases (x max : number) :
  clampQuantity x max =
  if js_gt (or_zero x) (or_zero max)
  then (if js_lt (or_zero max) zero then zero else or_zero max)
  else (if js_lt (or_zero x) zero then zero else or_zero x).
Proof.
  unfold clampQuantity, type_into, requested_qty. rewrite on_input_cases. simpl.
  case_conditions; simpl; rewrite ?or_zero_idem; reflexivity.
Qed.

(** X13. Clamping is monotone: for every maximum, typing a larger number
    never gives a smaller quantity. *)
Theorem clampQuantity_monotone (x y max : number) :
  js_le x y = true →
  js_le (clampQuantity x max) (clampQuantity y max) = true.
Proof.
  intros Hxy. destruct (js_le_not_nan _ _ Hxy) as [Hx Hy].
  rewrite !clampQuantity_cases.
  assert (Hv : js_le (or_zero x) (or_zero y) = true).
  { unfold js_le, SFleb in *.
    rewrite SFcompare_or_zero_l, SFcompare_or_zero_r by assumption. exact Hxy. }
  pose proof (or_zero_not_nan x) as Nx. pose proof (or_zero_not_nan y) as Ny.
  pose proof (or_zero_not_nan max) as Nm.
  set (vx := or_zero x) in *. set (vy := or_zero y) in *. set (m := or_zero max) in *.
  assert (Nz : is_nan zero = false) by reflexivity.
  rewrite (js_gt_negb_le vx m Nx Nm), (js_gt_negb_le vy m Ny Nm).
  change (js_lt m zero) with (js_gt zero m).
  change (js_lt vx zero) with (js_gt zero vx).
  change (js_lt vy zero) with (js_gt zero vy).
  rewrite (js_gt_negb_le zero m Nz Nm), (js_gt_negb_le zero vx Nz Nx),
          (js_gt_negb_le zero vy Nz Ny).
  destruct (js_le zero m) eqn:H0m; simpl.
  - destruct (js_le vx m) eqn:Hxm; simpl.
    + destruct (js_le zero vx) eqn:H0x; simpl.
      * destruct (js_le vy m) eqn:Hym; simpl; [|exact Hxm].
        rewrite (js_le_trans _ _ _ H0x Hv). simpl. exact Hv.
      * destruct (js_le vy m) eqn:Hym; simpl; [|exact H0m].
        destruct (js_le zero vy) eqn:H0y; simpl; [exact H0y|reflexivity].
    + destruct (js_le vy m) eqn:Hym; simpl; [|apply js_le_refl; exact Nm].
      rewrite (js_le_trans _ _ _ Hv Hym) in Hxm. discriminate.
  - assert (Hneg : ∀ v, is_nan v = false →
              (if negb (js_le v m) then zero
               else if negb (js_le zero v) then zero else v) = zero).
    { intros v Nv. destruct (js_le v m) eqn:Hvm; simpl; [|reflexivity].
      destruct (js_le zero v) eqn:H0v; simpl; [|reflexivity].
      rewrite (js_le_trans _ _ _ H0v Hvm) in H0m. discriminate. }
    rewrite (Hneg vx Nx), (Hneg vy Ny). reflexivity.
Qed.

Lemma clampQuantity_monotone_witness :
  js_le (of_Z 3) (of_Z 7) = true ∧
  js_le (clampQuantity (of_Z 3) (of_Z 5)) (clampQuantity (of_Z 7) (of_Z 5)) = true.
Proof.
  split; [reflexivity|].
  apply (clampQuantity_monotone (of_Z 3) (of_Z 7) (of_Z 5)). reflexivity.
Defined.

(** ** More on [collect_conversion_data] *)

(** X14. Whatever the fields hold, a collected payload never contains a
    zero or non-numeric quantity: it has one item for each input whose
    quantity is truthy, in order, and every item names the loan waybill. *)
Theorem payload_quantities_are_nonzero (inputs : list ConvertInput) (loan : Loan)
    (payload : list PayloadItem) :
  collect_conversion_data inputs loan = Some payload →
  Forall (λ p, truthy (pl_qty p) = true ∧ pl_loan_waybill p = loan_waybill loan)
    payload ∧
  pl_qty <$> payload =
    List.filter truthy (requested_qty <$> inputs).
Proof.
  revert payload. induction inputs as [|inp rest IH]; intros payload; simpl.
  - intros [= <-]. split; [constructor|reflexivity].
  - fold (requested_qty inp).
    destruct (truthy (requested_qty inp)) eqn:Ht; simpl; [|apply IH].
    destruct (items loan !! data_index inp) as [src|]; [|discriminate].
    destruct (collect_conversion_data rest loan) as [more|]; [|discriminate].
    intros [= <-]. destruct (IH more eq_refl) as [Hall Hq]. split.
    + constructor; [split; [exact Ht|reflexivity]|exact Hall].
    + simpl. f_equal. exact Hq.
Qed.

Lemma payload_quantities_are_nonzero_witness :
  collect_conversion_data captured_inputs loan_1 = Some captured_payload ∧
  Forall (λ p, truthy (pl_qty p) = true ∧ pl_loan_waybill p = loan_waybill loan_1)
    captured_payload ∧
  pl_qty <$> captured_payload =
    List.filter truthy (requested_qty <$> captured_inputs).
Proof.
  split; [reflexivity|].
  apply (payload_quantities_are_nonzero captured_inputs loan_1 captured_payload).
  reflexivity.
Defined.


(** ** Theme manager *)

Example css_var_primaryColor : css_var "primaryColor" = "--nbs-primary-color".
Proof. reflexivity. Qed.

Example css_var_tableHeaderBg : css_var "tableHeaderBg" = "--nbs-table-header-bg".
Proof. reflexivity. Qed.

(** With a hyphen in a key two keys can share a custom property. *)
Example css_var_collision : css_var "aB" = css_var "a-b".
Proof. reflexivity. Qed.

Lemma lower_not_upper (c : Ascii.ascii) : is_upper (lower c) = false.
Proof. destruct c as [[] [] [] [] [] [] [] []]; reflexivity. Qed.


Lemma lower_fixed (c : Ascii.ascii) : is_upper c = false → lower c = c.
Proof. unfold lower. intros ->. reflexivity. Qed.

Lemma toLowerCase_no_upper (s : string) :
  Forall (λ c, is_upper c = false) (String.list_ascii_of_string (toLowerCase s)).
Proof.
  induction s as [|c s IH]; simpl; constructor; [apply lower_not_upper|exact IH].
Qed.

Lemma css_var_unfold (key : string) :
  css_var key =
  String "-" (String "-" (String "n" (String "b" (String "s" (String "-"
    (toLowerCase (hyphenate key))))))).
Proof. reflexivity. Qed.

Lemma toLowerCase_hyphenate_length (key : string) :
  String.length (toLowerCase (hyphenate key)) =
  (String.length key +
   length (List.filter is_upper (String.list_ascii_of_string key)))%nat.
Proof.
  induction key as [|c key IH]; simpl; [reflexivity|].
  destruct (is_upper c); simpl; rewrite IH; lia.
Qed.

(** The name written in one pass over the key: a capital becomes a hyphen
    and its small letter, any other character stays. *)
Lemma toLowerCase_hyphenate_chars (key : string) :
  toLowerCase (hyphenate key) =
  String.string_of_list_ascii
    (flat_map (λ c, if is_upper c then ["-"%char; lower c] else [c])
              (String.list_ascii_of_string key)).
Proof.
  induction key as [|c key IH]; simpl; [reflexivity|].
  destruct (is_upper c) eqn:Hu; simpl; rewrite IH.
  - reflexivity.
  - rewrite (lower_fixed c Hu). reflexivity.
Qed.

(** X18. The custom property of a theme key is the text [--nbs-] followed by
    the characters of the key in their order, where a capital letter is
    replaced by a hyphen and its small letter and every other character is
    kept. So no character of it is a capital letter, and it is longer than
    the key by six characters and one more for each capital. *)
Theorem css_var_is_lower_case (key : string) :
  ascii_only key = true →
  css_var key =
    String.append "--nbs-"
      (String.string_of_list_ascii
         (flat_map (λ c, if is_upper c then ["-"%char; lower c] else [c])
                   (String.list_ascii_of_string key))) ∧
  Forall (λ c, is_upper c = false) (String.list_ascii_of_string (css_var key)) ∧
  String.length (css_var key) =
    (6 + String.length key +
     length (List.filter is_upper (String.list_ascii_of_string key)))%nat.
Proof.
  intros _. split.
  - unfold css_var. rewrite toLowerCase_hyphenate_chars. reflexivity.
  - rewrite css_var_unfold. split.
    + simpl. repeat (constructor; [reflexivity|]). apply toLowerCase_no_upper.
    + simpl. rewrite toLowerCase_hyphenate_length. lia.
Qed.

Lemma css_var_is_lower_case_witness :
  ascii_only "loginBoxWidth" = true ∧
  css_var "loginBoxWidth" = "--nbs-login-box-width" ∧
  Forall (λ c, is_upper c = false)
    (String.list_ascii_of_string (css_var "loginBoxWidth")) ∧
  String.length (css_var "loginBoxWidth") = 21%nat.
Proof.
  split; [reflexivity|].
  exact (css_var_is_lower_case "loginBoxWidth" eq_refl).
Defined.












(** With an "even" background that is no colour, the first row of a table
    styled under the installed configuration keeps the hover colour after
    the pointer has left it. *)
Example even_row_keeps_hover_colour :
  ∃ row', tbody_tr (styleTable default_theme sample_table) !! 0%nat = Some row' ∧
          row_backgroundColor row' = "#eff6ff" ∧
          row_backgroundColor (mouseleave broken_theme (mouseenter broken_theme row')) =
            "#ffeeee".
Proof. eexists. split; [reflexivity|]. split; reflexivity. Qed.


(** ** What is sent to the server *)





